(** * check_aws: the AWS connectivity check of scripts/check_aws.py

    The script asks STS for the caller identity through boto3 and falls
    back to the [aws] command line tool when boto3 cannot be imported.
    This development embeds the script (module-level statements,
    [check_with_boto3], [check_with_awscli], [main]) together with the
    parts of the Python runtime it touches: exceptions and [try]/[except],
    [print], [sys.exit], [str.strip], [json.dumps(.., indent=2)] and
    [json.loads]. *)

From Stdlib Require Import List NArith ZArith String Ascii Bool Arith Lia.
From Stdlib Require Import DecimalPos DecimalFacts.
Import ListNotations.

Set Implicit Arguments.
Local Open Scope N_scope.

(** ** Python strings

    A Python [str] is a sequence of Unicode code points. *)

Definition pystr : Type := list N.

(** An ASCII literal of the source, as a [pystr]. *)
Definition str (s : string) : pystr := map N_of_ascii (list_ascii_of_string s).

Definition pystr_eqb (a b : pystr) : bool :=
  if list_eq_dec N.eq_dec a b then true else false.

(** [s[0:len(p)] == p], returning what follows the prefix. *)
Fixpoint strip_prefix (p s : pystr) : option pystr :=
  match p, s with
  | [], _ => Some s
  | a :: p', b :: s' => if a =? b then strip_prefix p' s' else None
  | _ :: _, [] => None
  end.

(** [str.isspace] on one code point: the Unicode white space of CPython
    (bidirectional class WS, B or S, or category Zs). *)
Definition py_isspace (c : N) : bool :=
  ((9 <=? c) && (c <=? 13)) || ((28 <=? c) && (c <=? 32)) ||
  (c =? 133) || (c =? 160) || (c =? 5760) ||
  ((8192 <=? c) && (c <=? 8202)) || (c =? 8232) || (c =? 8233) ||
  (c =? 8239) || (c =? 8287) || (c =? 12288).

Fixpoint lstrip (s : pystr) : pystr :=
  match s with
  | c :: r => if py_isspace c then lstrip r else s
  | [] => []
  end.

(** [s.strip()] with no argument. *)
Definition strip (s : pystr) : pystr := rev (lstrip (rev (lstrip s))).

(** ** The part of the runtime left abstract

    Floating point numbers only pass through the script (read by
    [json.loads], written by [json.dumps]); their conversions from and to
    text are the interpreter's.  The text of a [JSONDecodeError]
    (message, line, column, offset) is the library's. *)

Class PyRuntime : Type := {
  pyfloat : Type;
  (** [float(s)] on a numeric literal matched by the scanner *)
  float_of_literal : pystr -> pyfloat;
  (** the constants [NaN], [Infinity], [-Infinity] of the decoder *)
  float_nan : pyfloat;
  float_inf : pyfloat;
  float_neginf : pyfloat;
  (** [floatstr] of json.encoder: [float.__repr__], or the three constants *)
  floatstr : pyfloat -> pystr;
  (** [str(JSONDecodeError(msg, doc, pos))], as a function of the base
      message and the document *)
  decode_errmsg : string -> pystr -> pystr
}.

(** ** Exceptions

    The classes the script names or can meet, with their bases.  Only
    subclasses of [Exception] are modelled: [KeyboardInterrupt] and the
    like are signals, not outcomes of a call; [SystemExit] is the [Exited]
    outcome below. *)

Inductive ExcClass : Type :=
  | Exception
  | ImportError | ModuleNotFoundError
  | OSError | FileNotFoundError | PermissionError
  | ValueError | UnicodeDecodeError | JSONDecodeError
  | RecursionError
  | BotoCoreError | NoCredentialsError | EndpointConnectionError
  | ClientError
  | OtherError (name : string).

Definition ExcClass_eq_dec (a b : ExcClass) : {a = b} + {a <> b}.
Proof. decide equality. apply string_dec. Defined.

(** The direct base of a class ([None] for [Exception] itself). *)
Definition base (c : ExcClass) : option ExcClass :=
  match c with
  | Exception => None
  | ModuleNotFoundError => Some ImportError
  | FileNotFoundError | PermissionError => Some OSError
  | UnicodeDecodeError | JSONDecodeError => Some ValueError
  | NoCredentialsError | EndpointConnectionError => Some BotoCoreError
  | _ => Some Exception
  end.

Fixpoint issubclass_fuel (n : nat) (c d : ExcClass) : bool :=
  if ExcClass_eq_dec c d then true
  else match n with
       | O => false
       | S n' => match base c with
                 | Some b => issubclass_fuel n' b d
                 | None => false
                 end
       end.

(** The hierarchy above is at most three levels deep. *)
Definition issubclass (c d : ExcClass) : bool := issubclass_fuel 3 c d.

Record Exn : Type := mkExn {
  exc_class : ExcClass;
  exc_str : pystr   (** [str(e)] *)
}.

Definition isinstance (e : Exn) (c : ExcClass) : bool :=
  issubclass (exc_class e) c.

Arguments isinstance : simpl never.

Section CheckAws.

Context {RT : PyRuntime}.

(** ** Values exchanged with the [json] module

    What [json.loads] can build and what the identity lookup returns: a
    JSON-like tree.  A [dict] keeps its keys in insertion order. *)

#[warnings="-register-all"]
Inductive pyval : Type :=
  | PNone
  | PBool (b : bool)
  | PInt (z : Z)
  | PFloat (f : pyfloat)
  | PStr (s : pystr)
  | PList (l : list pyval)
  | PDict (d : list (pystr * pyval)).

(** ** [json.dumps(obj, indent=n)]: json.encoder with [ensure_ascii] *)

Definition hexdigit (d : N) : N := if d <? 10 then 48 + d else 87 + d.

(** ['{0:04x}'.format(n)] for [n < 0x10000] *)
Definition hex4 (n : N) : pystr :=
  [hexdigit (n / 4096 mod 16); hexdigit (n / 256 mod 16);
   hexdigit (n / 16 mod 16); hexdigit (n mod 16)].

Definition u_escape (n : N) : pystr := 92 :: 117 :: hex4 n.

(** [replace] of [py_encode_basestring_ascii]: the escape of one code point. *)
Definition encode_char (c : N) : pystr :=
  if c =? 34 then [92; 34]              (* quote *)
  else if c =? 92 then [92; 92]         (* backslash *)
  else if c =? 10 then [92; 110]        (* \n *)
  else if c =? 13 then [92; 114]        (* \r *)
  else if c =? 9 then [92; 116]         (* \t *)
  else if c =? 12 then [92; 102]        (* \f *)
  else if c =? 8 then [92; 98]          (* \b *)
  else if (32 <=? c) && (c <=? 126) then [c]
  else if c <? 65536 then u_escape c
  else
    let n := c - 65536 in
    u_escape (N.lor 55296 (N.land (N.shiftr n 10) 1023)) ++
    u_escape (N.lor 56320 (N.land n 1023)).

Definition py_encode_basestring_ascii (s : pystr) : pystr :=
  34 :: flat_map encode_char s ++ [34].

Fixpoint uint_digits (d : Decimal.uint) : pystr :=
  match d with
  | Decimal.Nil => []
  | Decimal.D0 d => 48 :: uint_digits d
  | Decimal.D1 d => 49 :: uint_digits d
  | Decimal.D2 d => 50 :: uint_digits d
  | Decimal.D3 d => 51 :: uint_digits d
  | Decimal.D4 d => 52 :: uint_digits d
  | Decimal.D5 d => 53 :: uint_digits d
  | Decimal.D6 d => 54 :: uint_digits d
  | Decimal.D7 d => 55 :: uint_digits d
  | Decimal.D8 d => 56 :: uint_digits d
  | Decimal.D9 d => 57 :: uint_digits d
  end.

(** [int.__repr__] *)
Definition int_repr (z : Z) : pystr :=
  match z with
  | Z0 => [48]
  | Zpos p => uint_digits (Pos.to_uint p)
  | Zneg p => 45 :: uint_digits (Pos.to_uint p)
  end.

(** ['\n' + _indent * _current_indent_level] *)
Definition newline_indent (indent lvl : nat) : pystr :=
  10 :: repeat 32 (indent * lvl)%nat.

(** The chunks of a container joined by [separator]. *)
Fixpoint join (sep : pystr) (parts : list pystr) : pystr :=
  match parts with
  | [] => []
  | [p] => p
  | p :: ps => p ++ sep ++ join sep ps
  end.

(** [_iterencode] with its chunks concatenated; [indent] is the number of
    spaces per level, the separators are [','] and [': ']. *)
Fixpoint iterencode (indent lvl : nat) (o : pyval) : pystr :=
  match o with
  | PStr s => py_encode_basestring_ascii s
  | PNone => str "null"
  | PBool true => str "true"
  | PBool false => str "false"
  | PInt z => int_repr z
  | PFloat f => floatstr f
  | PList [] => str "[]"
  | PList l =>
      91 :: newline_indent indent (S lvl) ++
      join (44 :: newline_indent indent (S lvl))
           (map (iterencode indent (S lvl)) l) ++
      newline_indent indent lvl ++ [93]
  | PDict [] => str "{}"
  | PDict d =>
      123 :: newline_indent indent (S lvl) ++
      join (44 :: newline_indent indent (S lvl))
           (map (fun kv => py_encode_basestring_ascii (fst kv) ++ str ": " ++
                           iterencode indent (S lvl) (snd kv)) d) ++
      newline_indent indent lvl ++ [125]
  end.

Definition json_dumps (indent : nat) (obj : pyval) : pystr :=
  iterencode indent 0 obj.

(** ** [json.loads]: json.decoder and json.scanner *)

Inductive scan (A : Type) : Type :=
  | Scanned (a : A) (rest : pystr)
  | StopIteration
  | ScanError (c : ExcClass) (msg : string).

Arguments StopIteration {A}.
Arguments ScanError {A} c msg.

Definition scan_map {A B} (f : A -> B) (r : scan A) : scan B :=
  match r with
  | Scanned a rest => Scanned (f a) rest
  | StopIteration => StopIteration
  | ScanError c m => ScanError c m
  end.

(** [StopIteration] from [scan_once] becomes a decode error in its callers. *)
Definition expecting_value {A} (r : scan A) : scan A :=
  match r with
  | StopIteration => ScanError JSONDecodeError "Expecting value"
  | _ => r
  end.

(** [WHITESPACE = [ \t\n\r]*] *)
Definition is_ws (c : N) : bool :=
  (c =? 32) || (c =? 9) || (c =? 10) || (c =? 13).

Fixpoint skip_ws (s : pystr) : pystr :=
  match s with
  | c :: r => if is_ws c then skip_ws r else s
  | [] => []
  end.

Definition hexval (c : N) : option N :=
  if (48 <=? c) && (c <=? 57) then Some (c - 48)
  else if (97 <=? c) && (c <=? 102) then Some (c - 87)
  else if (65 <=? c) && (c <=? 70) then Some (c - 55)
  else None.

(** [int(esc, 16)] on four hexadecimal digits *)
Definition hex4_value (a b c d : N) : option N :=
  match hexval a, hexval b, hexval c, hexval d with
  | Some x, Some y, Some z, Some t => Some (x * 4096 + y * 256 + z * 16 + t)
  | _, _, _, _ => None
  end.

(** [BACKSLASH] *)
Definition backslash (e : N) : option N :=
  if e =? 34 then Some 34
  else if e =? 92 then Some 92
  else if e =? 47 then Some 47
  else if e =? 98 then Some 8
  else if e =? 102 then Some 12
  else if e =? 110 then Some 10
  else if e =? 114 then Some 13
  else if e =? 116 then Some 9
  else None.

Definition scan_cons (c : N) (r : scan pystr) : scan pystr :=
  scan_map (cons c) r.

Definition is_high_surrogate (u : N) : bool := (55296 <=? u) && (u <=? 56319).
Definition is_low_surrogate (u : N) : bool := (56320 <=? u) && (u <=? 57343).

Definition join_surrogates (u u2 : N) : N :=
  65536 + N.lor (N.shiftl (u - 55296) 10) (u2 - 56320).

(** [py_scanstring] in strict mode, entered after the opening quote. *)
Fixpoint scanstring (s : pystr) : scan pystr :=
  match s with
  | [] => ScanError JSONDecodeError "Unterminated string starting at"
  | c :: r =>
    if c =? 34 then Scanned [] r
    else if c =? 92 then
      match r with
      | [] => ScanError JSONDecodeError "Unterminated string starting at"
      | e :: r1 =>
        if e =? 117 then
          match r1 with
          | h1 :: h2 :: h3 :: h4 :: r2 =>
            match hex4_value h1 h2 h3 h4 with
            | None => ScanError JSONDecodeError "Invalid \uXXXX escape"
            | Some uni =>
              match r2 with
              | bs :: u :: r3 =>
                if is_high_surrogate uni && (bs =? 92) && (u =? 117) then
                  match r3 with
                  | l1 :: l2 :: l3 :: l4 :: r4 =>
                    match hex4_value l1 l2 l3 l4 with
                    | None =>
                        ScanError JSONDecodeError "Invalid \uXXXX escape"
                    | Some uni2 =>
                      if is_low_surrogate uni2
                      then scan_cons (join_surrogates uni uni2) (scanstring r4)
                      else scan_cons uni (scanstring r2)
                    end
                  | _ => ScanError JSONDecodeError "Invalid \uXXXX escape"
                  end
                else scan_cons uni (scanstring r2)
              | _ => scan_cons uni (scanstring r2)
              end
            end
          | _ => ScanError JSONDecodeError "Invalid \uXXXX escape"
          end
        else
          match backslash e with
          | Some ch => scan_cons ch (scanstring r1)
          | None => ScanError JSONDecodeError "Invalid \escape"
          end
      end
    else if c <? 32 then
      ScanError JSONDecodeError "Invalid control character at"
    else scan_cons c (scanstring r)
  end.

Definition is_digit (c : N) : bool := (48 <=? c) && (c <=? 57).

(** The longest run of decimal digits at the head of [s], and what follows. *)
Fixpoint span_digits (s : pystr) : pystr * pystr :=
  match s with
  | c :: r =>
      if is_digit c
      then let (ds, r') := span_digits r in (c :: ds, r')
      else ([], s)
  | [] => ([], [])
  end.

(** The three groups of [NUMBER_RE]: an optional minus sign and either a
    single zero or a digit from 1 to 9 and any digits; optionally a dot
    and one or more digits; optionally [e] or [E], an optional sign and
    one or more digits. *)
Definition match_integer (s : pystr) : option (pystr * pystr) :=
  let (sign, s1) :=
    match s with
    | c :: r => if c =? 45 then ([45], r) else ([], s)
    | [] => ([], s)
    end in
  match s1 with
  | c :: r =>
      if c =? 48 then Some (sign ++ [48], r)
      else if is_digit c
      then let (ds, r') := span_digits r in Some (sign ++ c :: ds, r')
      else None
  | [] => None
  end.

Definition match_frac (s : pystr) : option (pystr * pystr) :=
  match s with
  | c :: r =>
      if c =? 46 then
        match span_digits r with
        | ([], _) => None
        | (ds, r') => Some (46 :: ds, r')
        end
      else None
  | [] => None
  end.

Definition match_exp (s : pystr) : option (pystr * pystr) :=
  match s with
  | c :: r =>
      if (c =? 101) || (c =? 69) then
        let (sg, r1) :=
          match r with
          | c2 :: r2 => if (c2 =? 43) || (c2 =? 45) then ([c2], r2) else ([], r)
          | [] => ([], r)
          end in
        match span_digits r1 with
        | ([], _) => None
        | (ds, r') => Some (c :: sg ++ ds, r')
        end
      else None
  | [] => None
  end.

Fixpoint digits_uint (s : pystr) : Decimal.uint :=
  match s with
  | [] => Decimal.Nil
  | c :: r =>
      let d := digits_uint r in
      if c =? 48 then Decimal.D0 d
      else if c =? 49 then Decimal.D1 d
      else if c =? 50 then Decimal.D2 d
      else if c =? 51 then Decimal.D3 d
      else if c =? 52 then Decimal.D4 d
      else if c =? 53 then Decimal.D5 d
      else if c =? 54 then Decimal.D6 d
      else if c =? 55 then Decimal.D7 d
      else if c =? 56 then Decimal.D8 d
      else Decimal.D9 d
  end.

(** [int(s)] on the integer group of a number *)
Definition int_of_literal (s : pystr) : Z :=
  match s with
  | c :: r =>
      if c =? 45 then Z.opp (Z.of_N (N.of_uint (digits_uint r)))
      else Z.of_N (N.of_uint (digits_uint s))
  | [] => 0%Z
  end.

(** [match_number] followed by the conversion of [_scan_once]:
    a float when a fraction or an exponent is present, an int otherwise. *)
Definition scan_number (s : pystr) : option (pyval * pystr) :=
  match match_integer s with
  | None => None
  | Some (integer, r1) =>
      match match_frac r1 with
      | Some (frac, r2) =>
          match match_exp r2 with
          | Some (exp, r3) =>
              Some (PFloat (float_of_literal (integer ++ frac ++ exp)), r3)
          | None => Some (PFloat (float_of_literal (integer ++ frac)), r2)
          end
      | None =>
          match match_exp r1 with
          | Some (exp, r3) =>
              Some (PFloat (float_of_literal (integer ++ exp)), r3)
          | None => Some (PInt (int_of_literal integer), r1)
          end
      end
  end.

(** [d[k] = v] on an insertion-ordered dict *)
Fixpoint dict_set (k : pystr) (v : pyval) (d : list (pystr * pyval))
  : list (pystr * pyval) :=
  match d with
  | [] => [(k, v)]
  | (k', v') :: d' =>
      if pystr_eqb k' k then (k', v) :: d' else (k', v') :: dict_set k v d'
  end.

(** [dict(pairs)] *)
Definition dict_of_pairs (pairs : list (pystr * pyval))
  : list (pystr * pyval) :=
  fold_left (fun d kv => dict_set (fst kv) (snd kv) d) pairs [].

Definition scan_constant (name : string) (v : pyval) (s : pystr)
  : option (scan pyval) :=
  match strip_prefix (str name) s with
  | Some rest => Some (Scanned v rest)
  | None => None
  end.

Definition or_else {A} (o : option A) (d : A) : A :=
  match o with Some a => a | None => d end.

(** The branches of [_scan_once] after the literals: a number, else one
    of the three float constants, else [StopIteration]. *)
Definition scan_rest (s : pystr) : scan pyval :=
  match scan_number s with
  | Some (v, rest) => Scanned v rest
  | None =>
      or_else (scan_constant "NaN" (PFloat float_nan) s)
        (or_else (scan_constant "Infinity" (PFloat float_inf) s)
           (or_else (scan_constant "-Infinity" (PFloat float_neginf) s)
              StopIteration))
  end.

Definition expecting_name : string :=
  "Expecting property name enclosed in double quotes".

(** [_scan_once], [JSONArray] and [JSONObject].  The recursion of the
    library follows the nesting of the document; here every call spends
    one unit of [fuel], and a document of [n] characters needs at most
    [2 * n + 1] (the interpreter's own recursion limit is not modelled).
    [array_loop] is the [while True] of [JSONArray], entered at
    an element; [object_loop] that of [JSONObject], entered after the
    opening quote of a key. *)
Fixpoint scan_once (fuel : nat) (s : pystr) {struct fuel} : scan pyval :=
  match fuel with
  | O => ScanError RecursionError "maximum recursion depth exceeded"
  | S fuel' =>
    match s with
    | [] => StopIteration
    | c :: r =>
      if c =? 34 then scan_map PStr (scanstring r)
      else if c =? 123 then
        match skip_ws r with
        | c1 :: r1 =>
            if c1 =? 125 then Scanned (PDict []) r1
            else if c1 =? 34
            then scan_map (fun ps => PDict (dict_of_pairs ps))
                          (object_loop fuel' r1)
            else ScanError JSONDecodeError expecting_name
        | [] => ScanError JSONDecodeError expecting_name
        end
      else if c =? 91 then
        match skip_ws r with
        | c1 :: r1 =>
            if c1 =? 93 then Scanned (PList []) r1
            else scan_map PList (array_loop fuel' (c1 :: r1))
        | [] => scan_map PList (array_loop fuel' [])
        end
      else if c =? 110 then
        or_else (scan_constant "null" PNone s) (scan_rest s)
      else if c =? 116 then
        or_else (scan_constant "true" (PBool true) s) (scan_rest s)
      else if c =? 102 then
        or_else (scan_constant "false" (PBool false) s) (scan_rest s)
      else scan_rest s
    end
  end

with array_loop (fuel : nat) (s : pystr) {struct fuel} : scan (list pyval) :=
  match fuel with
  | O => ScanError RecursionError "maximum recursion depth exceeded"
  | S fuel' =>
    match expecting_value (scan_once fuel' s) with
    | Scanned v rest =>
        match skip_ws rest with
        | c :: r =>
            if c =? 93 then Scanned [v] r
            else if c =? 44
            then scan_map (cons v) (array_loop fuel' (skip_ws r))
            else ScanError JSONDecodeError "Expecting ',' delimiter"
        | [] => ScanError JSONDecodeError "Expecting ',' delimiter"
        end
    | StopIteration => StopIteration
    | ScanError c m => ScanError c m
    end
  end

with object_loop (fuel : nat) (s : pystr) {struct fuel}
  : scan (list (pystr * pyval)) :=
  match fuel with
  | O => ScanError RecursionError "maximum recursion depth exceeded"
  | S fuel' =>
    match scanstring s with
    | Scanned key rest =>
        match skip_ws rest with
        | c :: r =>
            if c =? 58 then
              match expecting_value (scan_once fuel' (skip_ws r)) with
              | Scanned v rest2 =>
                  match skip_ws rest2 with
                  | c2 :: r2 =>
                      if c2 =? 125 then Scanned [(key, v)] r2
                      else if c2 =? 44 then
                        match skip_ws r2 with
                        | q :: r3 =>
                            if q =? 34
                            then scan_map (cons (key, v)) (object_loop fuel' r3)
                            else ScanError JSONDecodeError expecting_name
                        | [] => ScanError JSONDecodeError expecting_name
                        end
                      else ScanError JSONDecodeError "Expecting ',' delimiter"
                  | [] => ScanError JSONDecodeError "Expecting ',' delimiter"
                  end
              | StopIteration => StopIteration
              | ScanError c' m => ScanError c' m
              end
            else ScanError JSONDecodeError "Expecting ':' delimiter"
        | [] => ScanError JSONDecodeError "Expecting ':' delimiter"
        end
    | StopIteration => StopIteration
    | ScanError c m => ScanError c m
    end
  end.

Definition decode_error (c : ExcClass) (msg : string) (doc : pystr) : Exn :=
  match c with
  | JSONDecodeError => mkExn JSONDecodeError (decode_errmsg msg doc)
  | _ => mkExn c (str msg)
  end.

(** [json.loads(s)] for a [str]: the byte order mark is refused, white
    space is skipped on both sides of one value, anything else after it is
    [Extra data]. *)
Definition json_loads (s : pystr) : Exn + pyval :=
  if match s with c :: _ => c =? 65279 | [] => false end
  then inl (decode_error JSONDecodeError
              "Unexpected UTF-8 BOM (decode using utf-8-sig)" s)
  else
    match expecting_value (scan_once (S (2 * List.length s)) (skip_ws s)) with
    | Scanned obj rest =>
        match skip_ws rest with
        | [] => inr obj
        | _ :: _ => inl (decode_error JSONDecodeError "Extra data" s)
        end
    | StopIteration => inl (decode_error JSONDecodeError "Expecting value" s)
    | ScanError c msg => inl (decode_error c msg s)
    end.

(** ** The process: standard output, subprocess calls, termination *)

Record State : Type := mkState {
  st_stdout : pystr;     (** what has been written to standard output *)
  st_spawned : nat;      (** calls of [subprocess.run] so far *)
  st_dotenv : nat        (** calls of [load_dotenv] so far *)
}.

Definition initial : State := mkState [] 0 0.

(** How a piece of code ends: it returns, raises, or [sys.exit] ends the
    process ([SystemExit] passes every [except Exception]). *)
Inductive Res (A : Type) : Type :=
  | Returned (a : A)
  | Raised (e : Exn)
  | Exited (code : Z).

Arguments Raised {A} e.
Arguments Exited {A} code.

Definition Py (A : Type) : Type := State -> Res A * State.

Definition ret {A} (a : A) : Py A := fun st => (Returned a, st).

Definition raise {A} (e : Exn) : Py A := fun st => (Raised e, st).

Definition bind {A B} (m : Py A) (k : A -> Py B) : Py B :=
  fun st =>
    match m st with
    | (Returned a, st') => k a st'
    | (Raised e, st') => (Raised e, st')
    | (Exited c, st') => (Exited c, st')
    end.

Notation "x <- m ;; k" := (bind m (fun x => k))
  (at level 61, m at next level, right associativity).
Notation "m ;; k" := (bind m (fun _ => k))
  (at level 61, right associativity).

(** The first [except] clause whose class the exception is an instance of. *)
Fixpoint find_handler {B} (e : Exn) (hs : list (ExcClass * (Exn -> Py B)))
  : option (Py B) :=
  match hs with
  | [] => None
  | (c, h) :: hs' => if isinstance e c then Some (h e) else find_handler e hs'
  end.

(** [try: body / except C1 as e: h1 / ...], then [k] on the value of the
    body.  A handler is the rest of the function from its clause on: one
    that ends in [return] gives the function's result, one that falls
    through ([pass]) goes on with [k]. *)
Definition try_ {A B} (body : Py A) (hs : list (ExcClass * (Exn -> Py B)))
  (k : A -> Py B) : Py B :=
  fun st =>
    match body st with
    | (Returned a, st') => k a st'
    | (Raised e, st') =>
        match find_handler e hs with
        | Some h => h st'
        | None => (Raised e, st')
        end
    | (Exited c, st') => (Exited c, st')
    end.

(** [print(s)] *)
Definition print (s : pystr) : Py unit :=
  fun st =>
    (Returned tt,
     mkState (st_stdout st ++ s ++ [10]) (st_spawned st) (st_dotenv st)).

(** [sys.exit(code)] *)
Definition sys_exit {A} (code : Z) : Py A := fun st => (Exited code, st).

(** ** The environment of one run

    What the imports, the SDK, the command line tool and python-dotenv do
    when the script reaches them. *)

Record CompletedProcess : Type := mkProc {
  returncode : Z;
  stdout : pystr;
  stderr : pystr
}.

Record World : Type := mkWorld {
  (** [from dotenv import load_dotenv]: [Some e] when it raises *)
  import_dotenv : option Exn;
  (** the [k]-th call of [load_dotenv()], counted from 0 *)
  load_dotenv_call : nat -> option Exn;
  (** [import boto3] *)
  import_boto3 : option Exn;
  (** [from botocore.exceptions import ...] *)
  import_botocore_exceptions : option Exn;
  (** [boto3.client("sts")] *)
  boto3_client_sts : option Exn;
  (** [sts.get_caller_identity()] *)
  get_caller_identity : Exn + pyval;
  (** [subprocess.run(["aws", "sts", "get-caller-identity", "--output",
      "json"], capture_output=True, text=True)] *)
  subprocess_run : Exn + CompletedProcess
}.

Variable w : World.

Definition statement (o : option Exn) : Py unit :=
  match o with Some e => raise e | None => ret tt end.

Definition call {A} (r : Exn + A) : Py A :=
  match r with inl e => raise e | inr a => ret a end.

Definition load_dotenv : Py unit :=
  fun st =>
    (match load_dotenv_call w (st_dotenv st) with
     | Some e => Raised e
     | None => Returned tt
     end,
     mkState (st_stdout st) (st_spawned st) (S (st_dotenv st))).

Definition run_aws_sts : Py CompletedProcess :=
  fun st =>
    (match subprocess_run w with
     | inl e => Raised e
     | inr p => Returned p
     end,
     mkState (st_stdout st) (S (st_spawned st)) (st_dotenv st)).

(** ** The script *)

(** The pair [(ok, data)] the two checks return: [(True, payload)] is
    [Success payload], [(False, text)] is [Failure text]. *)
Inductive CheckOutcome : Type :=
  | Success (identity : pyval)
  | Failure (reason : pystr).

Definition check_with_boto3 : Py CheckOutcome :=
  try_ (statement (import_boto3 w) ;;
        statement (import_botocore_exceptions w))
       [(Exception, fun _ => ret (Failure (str "boto3-not-available")))]
       (fun _ =>
  try_ (statement (boto3_client_sts w) ;;
        resp <- call (get_caller_identity w) ;;
        ret (Success resp))
       [(NoCredentialsError, fun _ => ret (Failure (str "no-credentials")));
        (EndpointConnectionError,
         fun e => ret (Failure (str "endpoint-error: " ++ exc_str e)));
        (ClientError,
         fun e => ret (Failure (str "client-error: " ++ exc_str e)));
        (Exception,
         fun e => ret (Failure (str "unknown-error: " ++ exc_str e)))]
       ret).

Definition check_with_awscli : Py CheckOutcome :=
  try_ run_aws_sts
       [(FileNotFoundError, fun _ => ret (Failure (str "aws-cli-not-found")))]
       (fun proc =>
  if negb (returncode proc =? 0)%Z
  then ret (Failure (str "aws-cli-error: " ++ strip (stderr proc)))
  else
  try_ (v <- call (json_loads (stdout proc)) ;; ret (Success v))
       [(Exception,
         fun e => ret (Failure (str "parse-error: " ++ exc_str e)))]
       ret).

(** [load_dotenv] names a function, which is true in a condition. *)
Definition load_dotenv_truth : bool := true.

Definition main : Py unit :=
  (if load_dotenv_truth
   then try_ load_dotenv [(Exception, fun _ => ret tt)] ret
   else ret tt) ;;
  r <- check_with_boto3 ;;
  match r with
  | Success data =>
      print (str "AWS reachable via boto3:") ;;
      print (json_dumps 2 data) ;;
      sys_exit 0
  | Failure data =>
      (if pystr_eqb data (str "boto3-not-available")
       then
         r2 <- check_with_awscli ;;
         match r2 with
         | Success data2 =>
             print (str "AWS reachable via aws-cli:") ;;
             print (json_dumps 2 data2) ;;
             sys_exit 0
         | Failure data2 =>
             print (str "AWS check failed (aws-cli): " ++ data2) ;;
             sys_exit 3
         end
       else ret tt) ;;
      (if pystr_eqb data (str "no-credentials")
       then
         print (str "AWS check failed: no credentials available for boto3") ;;
         sys_exit 2
       else ret tt) ;;
      print (str "AWS check failed (boto3): " ++ data) ;;
      sys_exit 4
  end.

(** The module from its first line: the import of python-dotenv, the
    module-level [load_dotenv()], then [main()] under the
    [__name__ == "__main__"] guard. *)
Definition script : Py unit :=
  statement (import_dotenv w) ;;
  load_dotenv ;;
  main.

(** The status the interpreter ends the process with: the argument of
    [sys.exit], 1 after the traceback of an uncaught exception, 0 when the
    module runs to its end. *)
Definition exit_status {A} (r : Res A) : Z :=
  match r with
  | Returned _ => 0%Z
  | Raised _ => 1%Z
  | Exited code => code
  end.

(** ** What happens in the environment, in the words of the design

    The events the two attempts can meet, read off the [World]. *)

Inductive SdkAttempt : Type :=
  | SdkImportFailed (e : Exn)      (** the library cannot be imported *)
  | SdkRaised (e : Exn)            (** the client or the call raises *)
  | SdkReturned (resp : pyval).    (** the call returns the identity *)

Definition sdk_attempt : SdkAttempt :=
  match import_boto3 w with
  | Some e => SdkImportFailed e
  | None =>
    match import_botocore_exceptions w with
    | Some e => SdkImportFailed e
    | None =>
      match boto3_client_sts w with
      | Some e => SdkRaised e
      | None =>
        match get_caller_identity w with
        | inl e => SdkRaised e
        | inr resp => SdkReturned resp
        end
      end
    end
  end.

(** The categories of a [CheckOutcome], recovered from the text of the
    failure. *)
Inductive OutcomeKind : Type :=
  | KSuccess
  | KPrimaryUnavailable | KNoCredentials
  | KEndpointError | KClientError | KUnknownError
  | KCliNotFound | KCliError | KParseError.

Definition has_prefix (p s : pystr) : bool :=
  match strip_prefix p s with Some _ => true | None => false end.

Definition kind_of (r : CheckOutcome) : option OutcomeKind :=
  match r with
  | Success _ => Some KSuccess
  | Failure s =>
      if pystr_eqb s (str "boto3-not-available") then Some KPrimaryUnavailable
      else if pystr_eqb s (str "no-credentials") then Some KNoCredentials
      else if has_prefix (str "endpoint-error: ") s then Some KEndpointError
      else if has_prefix (str "client-error: ") s then Some KClientError
      else if has_prefix (str "unknown-error: ") s then Some KUnknownError
      else if pystr_eqb s (str "aws-cli-not-found") then Some KCliNotFound
      else if has_prefix (str "aws-cli-error: ") s then Some KCliError
      else if has_prefix (str "parse-error: ") s then Some KParseError
      else None
  end.

(** The result of the SDK attempt, case by case. *)
Definition sdk_result : CheckOutcome :=
  match sdk_attempt with
  | SdkImportFailed _ => Failure (str "boto3-not-available")
  | SdkRaised e =>
      if isinstance e NoCredentialsError
      then Failure (str "no-credentials")
      else if isinstance e EndpointConnectionError
      then Failure (str "endpoint-error: " ++ exc_str e)
      else if isinstance e ClientError
      then Failure (str "client-error: " ++ exc_str e)
      else Failure (str "unknown-error: " ++ exc_str e)
  | SdkReturned resp => Success resp
  end.

Definition sdk_kind : OutcomeKind :=
  match sdk_attempt with
  | SdkImportFailed _ => KPrimaryUnavailable
  | SdkRaised e =>
      if isinstance e NoCredentialsError then KNoCredentials
      else if isinstance e EndpointConnectionError then KEndpointError
      else if isinstance e ClientError then KClientError
      else KUnknownError
  | SdkReturned _ => KSuccess
  end.

(** The result of the command line attempt, case by case; an exception
    of [subprocess.run] other than [FileNotFoundError] is not handled. *)
Definition cli_result : Res CheckOutcome :=
  match subprocess_run w with
  | inl e =>
      if isinstance e FileNotFoundError
      then Returned (Failure (str "aws-cli-not-found"))
      else Raised e
  | inr proc =>
      if (returncode proc =? 0)%Z then
        match json_loads (stdout proc) with
        | inr v => Returned (Success v)
        | inl e => Returned (Failure (str "parse-error: " ++ exc_str e))
        end
      else Returned (Failure (str "aws-cli-error: " ++ strip (stderr proc)))
  end.

Definition spawn (st : State) : State :=
  mkState (st_stdout st) (S (st_spawned st)) (st_dotenv st).

Definition emit (s : pystr) (st : State) : State :=
  mkState (st_stdout st ++ s ++ [10]) (st_spawned st) (st_dotenv st).

Definition dotenv_called (st : State) : State :=
  mkState (st_stdout st) (st_spawned st) (S (st_dotenv st)).

(** The terminal states of a run and the exit code the design gives each. *)
Inductive Terminal : Type :=
  | TPrimarySuccess
  | TFallbackSuccess
  | TFallbackFailure
  | TNoCredentials
  | TOtherPrimaryFailure.

Definition exit_code_of (t : Terminal) : Z :=
  match t with
  | TPrimarySuccess => 0
  | TFallbackSuccess => 0
  | TFallbackFailure => 3
  | TNoCredentials => 2
  | TOtherPrimaryFailure => 4
  end%Z.

(** [reports m r]: the check [m] returns [r], whatever the state it is
    called in. *)
Definition reports (m : Py CheckOutcome) (r : CheckOutcome) : Prop :=
  forall st, fst (m st) = Returned r.

(** [terminal t]: the two checks report what makes [t] the terminal state
    of the run. *)
Inductive terminal : Terminal -> Prop :=
  | term_primary_success r :
      reports check_with_boto3 r ->
      kind_of r = Some KSuccess ->
      terminal TPrimarySuccess
  | term_fallback_success r r2 :
      reports check_with_boto3 r ->
      kind_of r = Some KPrimaryUnavailable ->
      reports check_with_awscli r2 ->
      kind_of r2 = Some KSuccess ->
      terminal TFallbackSuccess
  | term_fallback_failure r reason :
      reports check_with_boto3 r ->
      kind_of r = Some KPrimaryUnavailable ->
      reports check_with_awscli (Failure reason) ->
      terminal TFallbackFailure
  | term_no_credentials r :
      reports check_with_boto3 r ->
      kind_of r = Some KNoCredentials ->
      terminal TNoCredentials
  | term_other_primary_failure r k :
      reports check_with_boto3 r ->
      kind_of r = Some k ->
      k = KEndpointError \/ k = KClientError \/ k = KUnknownError ->
      terminal TOtherPrimaryFailure.

(** ** Valid JSON payloads and what is printed for them *)

(** A Unicode scalar value: a code point that is not a surrogate. *)
Definition is_scalar_value (c : N) : bool :=
  (c <? 55296) || ((57343 <? c) && (c <? 1114112)).

Definition valid_text (s : pystr) : bool := forallb is_scalar_value s.

Fixpoint distinct (ks : list pystr) : bool :=
  match ks with
  | [] => true
  | k :: r => negb (existsb (pystr_eqb k) r) && distinct r
  end.

(** A payload that is a JSON value: null, booleans, integers, text made
    of Unicode scalar values, arrays, and objects whose keys are distinct;
    [okf] says which floating point leaves are admitted. *)
Fixpoint valid_json_with (okf : pyfloat -> bool) (v : pyval) : bool :=
  match v with
  | PNone | PBool _ | PInt _ => true
  | PFloat f => okf f
  | PStr s => valid_text s
  | PList l => forallb (valid_json_with okf) l
  | PDict d =>
      distinct (map fst d) &&
      forallb (fun kv => valid_text (fst kv) && valid_json_with okf (snd kv))
              d
  end.

(** The valid payloads without floating point leaves: the text of a
    float is the runtime's and nothing is known of it here. *)
Definition valid_json : pyval -> bool := valid_json_with (fun _ => false).

(** The number of calls the scanner makes on the text of a value. *)
Fixpoint scan_calls (v : pyval) : nat :=
  match v with
  | PList l => S (list_sum (map (fun e => S (scan_calls e)) l))
  | PDict d => S (list_sum (map (fun kv => S (scan_calls (snd kv))) d))
  | _ => 1
  end.

(** Standard output without its first line. *)
Fixpoint after_first_line (out : pystr) : pystr :=
  match out with
  | [] => []
  | c :: r => if c =? 10 then r else after_first_line r
  end.

(** [f] holds on the [2 ^ depth] code points from [lo] on. *)
Fixpoint holds_on_range (depth : nat) (lo : N) (f : N -> bool) : bool :=
  match depth with
  | O => f lo
  | S d => holds_on_range d lo f && holds_on_range d (lo + 2 ^ N.of_nat d) f
  end.

(** A result of the scanner on a text of [n] characters that is no fuel
    exhaustion and, when a value was read, leaves less than [n]. *)
Definition sound_scan {A} (n : nat) (r : scan A) : Prop :=
  match r with
  | Scanned _ rest => (List.length rest < n)%nat
  | StopIteration => True
  | ScanError c _ => c = JSONDecodeError
  end.

(** ** The shape of the text [json.dumps] prints

    Notions used to follow the scanner along that text. *)

(** What may follow a value in the text: its end, a comma or a newline. *)
Definition ends_value (rest : pystr) : bool :=
  match rest with
  | [] => true
  | c :: _ => (c =? 44) || (c =? 10)
  end.

(** The text begins with something that is not white space. *)
Definition no_ws_ahead (s : pystr) : bool :=
  match s with
  | c :: _ => negb (is_ws c)
  | [] => true
  end.

(** The text begins like a value: not with white space, a closing
    bracket or a byte order mark. *)
Definition starts_value (s : pystr) : bool :=
  match s with
  | c :: _ => negb (is_ws c) && negb (c =? 93) && negb (c =? 65279)
  | [] => false
  end.

(** A decimal numeral that is not empty and has no leading zero. *)
Definition leading_nonzero (d : Decimal.uint) : Prop :=
  match d with
  | Decimal.Nil | Decimal.D0 _ => False
  | _ => True
  end.

(** What follows the first chunk of a joined container. *)
Definition join_tail (sep : pystr) (ps : list pystr) (t : pystr) : pystr :=
  match ps with
  | [] => t
  | _ :: _ => sep ++ join sep ps ++ t
  end.

(** The chunk of one [key: value] pair of a dict. *)
Definition encode_item (indent lvl : nat) (kv : pystr * pyval) : pystr :=
  py_encode_basestring_ascii (fst kv) ++ str ": " ++
  iterencode indent lvl (snd kv).

(** What the runtime must grant for a float to be read back: its text
    begins like a value, and the scanner reads it back to the same float
    when the text of a container goes on after it. *)
Definition float_reads_back (f : pyfloat) : Prop :=
  starts_value (floatstr f) = true /\
  forall fuel rest,
    ends_value rest = true ->
    scan_once (S fuel) (floatstr f ++ rest) = Scanned (PFloat f) rest.

(** What [scan_once] does on the text of a value. *)
Definition scans_back (okf : pyfloat -> bool) (v : pyval) : Prop :=
  valid_json_with okf v = true ->
  forall indent lvl fuel rest,
    (scan_calls v <= fuel)%nat ->
    ends_value rest = true ->
    scan_once fuel (iterencode indent lvl v ++ rest) = Scanned v rest.

(** [succeeds_with header data]: the run succeeds through the path that
    announces itself with [header], with the identity [data]. *)
Inductive succeeds_with : pystr -> pyval -> Prop :=
  | succeeds_primary data :
      reports check_with_boto3 (Success data) ->
      succeeds_with (str "AWS reachable via boto3:") data
  | succeeds_fallback data :
      reports check_with_boto3 (Failure (str "boto3-not-available")) ->
      reports check_with_awscli (Success data) ->
      succeeds_with (str "AWS reachable via aws-cli:") data.

End CheckAws.

Arguments StopIteration {A}.
Arguments ScanError {A} c msg.
Arguments Raised {A} e.
Arguments Exited {A} code.

(** ** A runtime to evaluate the definitions

    A float stands as the text of its literal and a decode error shows its
    base message; enough to run the script on concrete environments. *)

#[local] Instance literal_runtime : PyRuntime := {|
  pyfloat := pystr;
  float_of_literal := fun s => s;
  float_nan := str "NaN";
  float_inf := str "Infinity";
  float_neginf := str "-Infinity";
  floatstr := fun f => f;
  decode_errmsg := fun msg _ => str msg
|}.

Definition quiet_dotenv : nat -> option Exn := fun _ => None.

Definition no_boto3 : Exn :=
  mkExn ModuleNotFoundError (str "No module named 'boto3'").

Definition permission_denied : Exn :=
  mkExn PermissionError (str "[Errno 13] Permission denied: 'aws'").

(** The identity of the design's example. *)
Definition test_identity `{PyRuntime} : pyval :=
  PDict [(str "Account", PStr (str "123456789012"));
         (str "Arn", PStr (str "arn:aws:iam::123456789012:user/test"));
         (str "UserId", PStr (str "AID..."))].

(** An ASCII literal between double quotes. *)
Definition quoted (s : string) : pystr := 34 :: str s ++ [34].

(** boto3 is installed and the call returns the example identity. *)
Definition world_sdk_ok `{PyRuntime} : World :=
  mkWorld None quiet_dotenv None None None (inr test_identity)
          (inl (mkExn FileNotFoundError [])).

(** boto3 is installed, no credentials are configured; the [aws] tool
    would succeed. *)
Definition world_no_credentials `{PyRuntime} : World :=
  mkWorld None quiet_dotenv None None None
          (inl (mkExn NoCredentialsError (str "Unable to locate credentials")))
          (inr (mkProc 0 (str "{}") [])).

(** boto3 is installed, the endpoint cannot be reached. *)
Definition world_endpoint_down `{PyRuntime} : World :=
  mkWorld None quiet_dotenv None None None
          (inl (mkExn EndpointConnectionError
                  (str "could not connect")))
          (inr (mkProc 0 (str "{}") [])).

(** boto3 is missing; [aws] exits 1 with the stderr of the design's
    scenario. *)
Definition world_cli_no_credentials `{PyRuntime} : World :=
  mkWorld None quiet_dotenv (Some no_boto3) None None
          (inl no_boto3)
          (inr (mkProc 1 [] (str "Unable to locate credentials"))).

(** boto3 is missing; [aws] prints an empty JSON object. *)
Definition world_cli_ok `{PyRuntime} : World :=
  mkWorld None quiet_dotenv (Some no_boto3) None None
          (inl no_boto3)
          (inr (mkProc 0 (str "{}") [])).

(** boto3 is missing; an [aws] file is on the path but cannot be executed. *)
Definition world_cli_not_executable `{PyRuntime} : World :=
  mkWorld None quiet_dotenv (Some no_boto3) None None
          (inl no_boto3)
          (inl permission_denied).

(** The [.env] file exists and cannot be read: the first [load_dotenv()]
    raises. *)
Definition world_dotenv_unreadable `{PyRuntime} : World :=
  mkWorld None
          (fun _ => Some (mkExn PermissionError
                            (str "[Errno 13] Permission denied: '.env'")))
          None None None (inr test_identity)
          (inl (mkExn FileNotFoundError [])).

(** python-dotenv is not installed. *)
Definition world_no_dotenv `{PyRuntime} : World :=
  mkWorld (Some (mkExn ModuleNotFoundError (str "No module named 'dotenv'")))
          quiet_dotenv None None None (inr test_identity)
          (inl (mkExn FileNotFoundError [])).

(** ** Variations of an environment, and notions for what follows *)

Section Variations.

Context {RT : PyRuntime}.

(** The environment [w] with another python-dotenv. *)
Definition with_dotenv (imp : option Exn) (calls : nat -> option Exn)
  (w : World) : World :=
  mkWorld imp calls (import_boto3 w) (import_botocore_exceptions w)
          (boto3_client_sts w) (get_caller_identity w) (subprocess_run w).

(** The environment [w] with another [aws] tool. *)
Definition with_subprocess_run (r : Exn + CompletedProcess) (w : World)
  : World :=
  mkWorld (import_dotenv w) (load_dotenv_call w) (import_boto3 w)
          (import_botocore_exceptions w) (boto3_client_sts w)
          (get_caller_identity w) r.

(** Text made of white space only, for [str.strip]. *)
Definition blank (s : pystr) : bool := forallb py_isspace s.

(** Text that neither begins nor ends with white space. *)
Definition trimmed (s : pystr) : bool :=
  match s with
  | [] => true
  | c :: r => negb (py_isspace c) && negb (py_isspace (last r c))
  end.

Definition is_ascii (c : N) : bool := c <? 128.

Fixpoint no_floats (v : pyval) : bool :=
  match v with
  | PFloat _ => false
  | PList l => forallb no_floats l
  | PDict d => forallb (fun kv => no_floats (snd kv)) d
  | _ => true
  end.

(** How [main] ends, read off the environment: the SDK attempt first,
    the command line tool when an import failed. *)
Definition ending (w : World) : Res unit :=
  match sdk_attempt w with
  | SdkReturned _ => Exited 0
  | SdkRaised e =>
      if isinstance e NoCredentialsError then Exited 2 else Exited 4
  | SdkImportFailed _ =>
      match subprocess_run w with
      | inl e => if isinstance e FileNotFoundError then Exited 3 else Raised e
      | inr proc =>
          if (returncode proc =? 0)%Z
          then match json_loads (stdout proc) with
               | inr _ => Exited 0
               | inl _ => Exited 3
               end
          else Exited 3
      end
  end.

(** What stops the module before [main]: the import of python-dotenv or
    the first [load_dotenv()]. *)
Definition prelude (w : World) : option Exn :=
  match import_dotenv w with
  | Some e => Some e
  | None => load_dotenv_call w 0%nat
  end.

(** The same exception with another text. *)
Definition retext_exn (f : Exn -> pystr) (e : Exn) : Exn :=
  mkExn (exc_class e) (f e).

Definition retext_result {A} (f : Exn -> pystr) (r : Exn + A) : Exn + A :=
  match r with
  | inl e => inl (retext_exn f e)
  | inr a => inr a
  end.

(** The environment [w] where every exception carries the text [f]
    gives it, its class unchanged. *)
Definition retext (f : Exn -> pystr) (w : World) : World :=
  mkWorld (option_map (retext_exn f) (import_dotenv w))
          (fun k => option_map (retext_exn f) (load_dotenv_call w k))
          (option_map (retext_exn f) (import_boto3 w))
          (option_map (retext_exn f) (import_botocore_exceptions w))
          (option_map (retext_exn f) (boto3_client_sts w))
          (retext_result f (get_caller_identity w))
          (retext_result f (subprocess_run w)).

End Variations.

(** boto3 is missing; [aws] exits 255 with white space around its
    message on stderr. *)
Definition world_cli_padded_stderr `{PyRuntime} : World :=
  mkWorld None quiet_dotenv (Some no_boto3) None None
          (inl no_boto3)
          (inr (mkProc 255 []
                  ([10; 32] ++ str "Unable to locate credentials" ++ [10]))).

(** boto3 is missing; [aws] exits 1 and writes a lone newline to stderr. *)
Definition world_cli_blank_stderr `{PyRuntime} : World :=
  mkWorld None quiet_dotenv (Some no_boto3) None None
          (inl no_boto3)
          (inr (mkProc 1 [] [10])).

(** boto3 is missing; [aws] exits 0 and prints a lone newline. *)
Definition world_cli_silent `{PyRuntime} : World :=
  mkWorld None quiet_dotenv (Some no_boto3) None None
          (inl no_boto3)
          (inr (mkProc 0 [10] [])).

(** boto3 is missing; [aws] prints the example identity four spaces in. *)
Definition world_cli_identity `{PyRuntime} : World :=
  mkWorld None quiet_dotenv (Some no_boto3) None None
          (inl no_boto3)
          (inr (mkProc 0 (json_dumps 4 test_identity ++ [10]) [])).

(** boto3 is installed but no region is configured: the client cannot be
    built. *)
Definition no_region : Exn :=
  mkExn (OtherError "NoRegionError") (str "You must specify a region.").

Definition world_no_region `{PyRuntime} : World :=
  mkWorld None quiet_dotenv None None (Some no_region)
          (inr test_identity)
          (inr (mkProc 0 (str "{}") [])).

(** * Properties *)

Section Properties.

Context {RT : PyRuntime}.

(** ** Exceptions and handlers *)

Lemma isinstance_Exception (e : Exn) : isinstance e Exception = true.
Proof. destruct e as [c m]; destruct c; reflexivity. Qed.

(** The three botocore classes the script tells apart have no instance in
    common, so the order of the [except] clauses does not matter. *)
Lemma botocore_classes_disjoint (e : Exn) :
  (isinstance e NoCredentialsError = true ->
   isinstance e EndpointConnectionError = false /\
   isinstance e ClientError = false) /\
  (isinstance e EndpointConnectionError = true ->
   isinstance e ClientError = false).
Proof.
  destruct e as [c m]; destruct c; unfold isinstance; cbn;
    intuition congruence.
Qed.

Lemma pystr_eqb_eq (a b : pystr) : pystr_eqb a b = true <-> a = b.
Proof.
  unfold pystr_eqb. destruct (list_eq_dec N.eq_dec a b); intuition congruence.
Qed.

Lemma pystr_eqb_refl (a : pystr) : pystr_eqb a a = true.
Proof. now apply pystr_eqb_eq. Qed.

Lemma strip_prefix_app (p s : pystr) : strip_prefix p (p ++ s) = Some s.
Proof. induction p as [|a p IH]; cbn; [|rewrite N.eqb_refl]; auto. Qed.

Lemma has_prefix_app (p s : pystr) : has_prefix p (p ++ s) = true.
Proof. unfold has_prefix. now rewrite strip_prefix_app. Qed.

(** ** The two checks *)

Variable w : World.

Lemma check_with_boto3_returns (st : State) :
  check_with_boto3 w st = (Returned (sdk_result w), st).
Proof.
  unfold check_with_boto3, sdk_result, sdk_attempt, try_, bind, statement, call.
  destruct (import_boto3 w) as [e|]; cbn.
  { now rewrite isinstance_Exception. }
  destruct (import_botocore_exceptions w) as [e|]; cbn.
  { now rewrite isinstance_Exception. }
  destruct (boto3_client_sts w) as [e|]; cbn.
  - destruct (isinstance e NoCredentialsError); [reflexivity|].
    destruct (isinstance e EndpointConnectionError); [reflexivity|].
    destruct (isinstance e ClientError); [reflexivity|].
    now rewrite isinstance_Exception.
  - destruct (get_caller_identity w) as [e|resp]; cbn; [|reflexivity].
    destruct (isinstance e NoCredentialsError); [reflexivity|].
    destruct (isinstance e EndpointConnectionError); [reflexivity|].
    destruct (isinstance e ClientError); [reflexivity|].
    now rewrite isinstance_Exception.
Qed.

Lemma kind_of_sdk_result : kind_of (sdk_result w) = Some (sdk_kind w).
Proof.
  unfold sdk_result, sdk_kind.
  destruct (sdk_attempt w) as [e|e|resp]; [reflexivity| |reflexivity].
  destruct (isinstance e NoCredentialsError); [reflexivity|].
  destruct (isinstance e EndpointConnectionError).
  { unfold kind_of. now rewrite has_prefix_app. }
  destruct (isinstance e ClientError).
  { unfold kind_of. now rewrite has_prefix_app. }
  unfold kind_of. now rewrite has_prefix_app.
Qed.

Lemma reports_boto3 (r : CheckOutcome) :
  reports (check_with_boto3 w) r <-> r = sdk_result w.
Proof.
  unfold reports. split.
  - intros H. specialize (H initial).
    rewrite check_with_boto3_returns in H. cbn in H. congruence.
  - intros -> st. now rewrite check_with_boto3_returns.
Qed.

Lemma check_with_awscli_runs (st : State) :
  check_with_awscli w st = (cli_result w, spawn st).
Proof.
  unfold check_with_awscli, cli_result, try_, run_aws_sts, bind, call.
  destruct (subprocess_run w) as [e|proc]; cbn.
  - destruct (isinstance e FileNotFoundError); reflexivity.
  - destruct (returncode proc =? 0)%Z; cbn; [|reflexivity].
    destruct (json_loads (stdout proc)) as [e|v]; cbn; [|reflexivity].
    now rewrite isinstance_Exception.
Qed.

Lemma reports_awscli (r : CheckOutcome) :
  reports (check_with_awscli w) r <-> cli_result w = Returned r.
Proof.
  unfold reports. split.
  - intros H. specialize (H initial).
    now rewrite check_with_awscli_runs in H.
  - intros H st. now rewrite check_with_awscli_runs.
Qed.

(** ** The runs of [main] *)

Lemma guarded_load_dotenv (st : State) :
  try_ (load_dotenv w) [(Exception, fun _ => ret tt)] ret st
  = (Returned tt, dotenv_called st).
Proof.
  unfold try_, load_dotenv.
  destruct (load_dotenv_call w (st_dotenv st)) as [e|]; cbn; [|reflexivity].
  now rewrite isinstance_Exception.
Qed.

Lemma main_primary_success (st : State) (data : pyval) :
  sdk_result w = Success data ->
  main w st =
  (Exited 0,
   emit (json_dumps 2 data)
     (emit (str "AWS reachable via boto3:") (dotenv_called st))).
Proof.
  intros H. unfold main, bind. cbn [load_dotenv_truth].
  rewrite guarded_load_dotenv, check_with_boto3_returns, H. reflexivity.
Qed.

Lemma main_no_credentials (st : State) :
  sdk_result w = Failure (str "no-credentials") ->
  main w st =
  (Exited 2,
   emit (str "AWS check failed: no credentials available for boto3")
     (dotenv_called st)).
Proof.
  intros H. unfold main, bind. cbn [load_dotenv_truth].
  rewrite guarded_load_dotenv, check_with_boto3_returns, H. reflexivity.
Qed.

Lemma main_other_failure (st : State) (data : pystr) :
  sdk_result w = Failure data ->
  data <> str "boto3-not-available" ->
  data <> str "no-credentials" ->
  main w st =
  (Exited 4,
   emit (str "AWS check failed (boto3): " ++ data) (dotenv_called st)).
Proof.
  intros H H1 H2. unfold main, bind. cbn [load_dotenv_truth].
  rewrite guarded_load_dotenv, check_with_boto3_returns, H.
  destruct (pystr_eqb data (str "boto3-not-available")) eqn:E1.
  { apply pystr_eqb_eq in E1. contradiction. }
  destruct (pystr_eqb data (str "no-credentials")) eqn:E2.
  { apply pystr_eqb_eq in E2. contradiction. }
  reflexivity.
Qed.

Lemma main_fallback (st : State) :
  sdk_result w = Failure (str "boto3-not-available") ->
  main w st =
  match cli_result w with
  | Returned (Success data2) =>
      (Exited 0,
       emit (json_dumps 2 data2)
         (emit (str "AWS reachable via aws-cli:") (spawn (dotenv_called st))))
  | Returned (Failure data2) =>
      (Exited 3,
       emit (str "AWS check failed (aws-cli): " ++ data2)
         (spawn (dotenv_called st)))
  | Raised e => (Raised e, spawn (dotenv_called st))
  | Exited c => (Exited c, spawn (dotenv_called st))
  end.
Proof.
  intros H. unfold main, bind. cbn [load_dotenv_truth].
  rewrite guarded_load_dotenv, check_with_boto3_returns, H.
  replace (pystr_eqb (str "boto3-not-available") (str "boto3-not-available"))
    with true by (symmetry; apply pystr_eqb_refl).
  rewrite check_with_awscli_runs.
  destruct (cli_result w) as [[data2|data2]|e|c]; reflexivity.
Qed.

Lemma kind_unavailable (r : CheckOutcome) :
  kind_of r = Some KPrimaryUnavailable ->
  r = Failure (str "boto3-not-available").
Proof.
  destruct r as [v|s]; [discriminate|]. unfold kind_of.
  destruct (pystr_eqb s (str "boto3-not-available")) eqn:E.
  { apply pystr_eqb_eq in E. now subst. }
  repeat match goal with
         | |- context [if ?b then _ else _] => destruct b
         end; discriminate.
Qed.

Lemma kind_no_credentials (r : CheckOutcome) :
  kind_of r = Some KNoCredentials -> r = Failure (str "no-credentials").
Proof.
  destruct r as [v|s]; [discriminate|]. unfold kind_of.
  destruct (pystr_eqb s (str "boto3-not-available")); [discriminate|].
  destruct (pystr_eqb s (str "no-credentials")) eqn:E.
  { apply pystr_eqb_eq in E. now subst. }
  repeat match goal with
         | |- context [if ?b then _ else _] => destruct b
         end; discriminate.
Qed.

Lemma kind_other_failure (r : CheckOutcome) (k : OutcomeKind) :
  kind_of r = Some k ->
  k = KEndpointError \/ k = KClientError \/ k = KUnknownError ->
  exists s, r = Failure s /\ s <> str "boto3-not-available" /\
            s <> str "no-credentials".
Proof.
  destruct r as [v|s]; [cbn; intuition congruence|]. unfold kind_of.
  destruct (pystr_eqb s (str "boto3-not-available")) eqn:E1;
    [intuition congruence|].
  destruct (pystr_eqb s (str "no-credentials")) eqn:E2;
    [intuition congruence|].
  intros _ _. exists s. repeat split.
  - intros ->. now rewrite pystr_eqb_refl in E1.
  - intros ->. now rewrite pystr_eqb_refl in E2.
Qed.

Lemma kind_success (r : CheckOutcome) :
  kind_of r = Some KSuccess -> exists v, r = Success v.
Proof.
  destruct r as [v|s]; [now exists v|]. unfold kind_of.
  repeat match goal with
         | |- context [if ?b then _ else _] => destruct b
         end; discriminate.
Qed.

(** ** Exit codes *)


(** How [main] ends, in every environment: with [sys.exit] on one of 0,
    2, 3, 4, unless boto3 is unavailable and [subprocess.run] raises
    something else than [FileNotFoundError], which leaves [main]. *)
Lemma main_ends (st : State) :
  match fst (main w st) with
  | Exited code => In code [0; 2; 3; 4]%Z
  | Raised e =>
      sdk_result w = Failure (str "boto3-not-available") /\
      subprocess_run w = inl e /\ isinstance e FileNotFoundError = false
  | Returned _ => False
  end.
Proof.
  destruct (sdk_result w) as [v|s] eqn:E.
  { rewrite (main_primary_success st E). cbn. auto. }
  destruct (pystr_eqb s (str "boto3-not-available")) eqn:E1.
  { apply pystr_eqb_eq in E1. subst s. rewrite (main_fallback st E).
    unfold cli_result.
    destruct (subprocess_run w) as [e|proc].
    - destruct (isinstance e FileNotFoundError) eqn:Ei; cbn; auto.
    - destruct (returncode proc =? 0)%Z; [|cbn; auto].
      destruct (json_loads (stdout proc)); cbn; auto. }
  destruct (pystr_eqb s (str "no-credentials")) eqn:E2.
  { apply pystr_eqb_eq in E2. subst s. rewrite (main_no_credentials st E).
    cbn. auto. }
  rewrite (main_other_failure st E); [cbn; auto| |].
  - intros ->. now rewrite pystr_eqb_refl in E1.
  - intros ->. now rewrite pystr_eqb_refl in E2.
Qed.

(** C10, at the environment where boto3 is missing and the [aws] file on
    the path cannot be executed: [PermissionError] leaves
    [check_with_awscli] and [main], nothing is printed, and the
    interpreter ends the process with status 1. *)
Theorem main_uncaught_permission_error (st : State) :
  main world_cli_not_executable st
  = (Raised permission_denied, spawn (dotenv_called st)) /\
  exit_status (fst (main world_cli_not_executable st)) = 1%Z.
Proof. split; reflexivity. Qed.

(** ** When the fallback runs *)

(** C2. When the primary path reports anything but
    [boto3-not-available] (a success, no credentials, an endpoint, client
    or unknown error), the run of [main] calls [subprocess.run] zero
    times. *)
Theorem no_subprocess_unless_unavailable (st : State) (r : CheckOutcome) :
  reports (check_with_boto3 w) r ->
  r <> Failure (str "boto3-not-available") ->
  st_spawned (snd (main w st)) = st_spawned st.
Proof.
  intros Hr Hne. apply reports_boto3 in Hr. subst r.
  destruct (sdk_result w) as [v|s] eqn:E.
  { now rewrite (main_primary_success st E). }
  destruct (pystr_eqb s (str "no-credentials")) eqn:E2.
  { apply pystr_eqb_eq in E2. subst s.
    now rewrite (main_no_credentials st E). }
  rewrite (main_other_failure st E); [reflexivity| |].
  - intros ->. now apply Hne.
  - intros ->. now rewrite pystr_eqb_refl in E2.
Qed.

(** The fallback runs exactly once when the primary path is unavailable. *)
Lemma one_subprocess_when_unavailable (st : State) :
  reports (check_with_boto3 w) (Failure (str "boto3-not-available")) ->
  st_spawned (snd (main w st)) = S (st_spawned st).
Proof.
  intros Hr. apply reports_boto3 in Hr. symmetry in Hr.
  rewrite (main_fallback st Hr).
  destruct (cli_result w) as [[v|s]|e|c]; reflexivity.
Qed.

(** ** What is printed *)

(** C3, as the code has it.  Primary path unavailable, [aws] exits 1 with
    stderr [Unable to locate credentials]: the line printed carries the
    category [aws-cli-error] before the text of stderr, and the process
    exits with 3. *)
Theorem fallback_cli_error_line (st : State) (proc : CompletedProcess) :
  reports (check_with_boto3 w) (Failure (str "boto3-not-available")) ->
  subprocess_run w = inr proc ->
  returncode proc = 1%Z ->
  stderr proc = str "Unable to locate credentials" ->
  fst (main w st) = Exited 3 /\
  st_stdout (snd (main w st)) =
  st_stdout st ++
  str "AWS check failed (aws-cli): aws-cli-error: Unable to locate credentials"
  ++ [10].
Proof.
  intros Hr Hp Hc He. apply reports_boto3 in Hr. symmetry in Hr.
  rewrite (main_fallback st Hr). unfold cli_result. rewrite Hp, Hc, He.
  split; reflexivity.
Qed.

(** C8. When the primary path reports [no-credentials], [main] prints the
    one line [AWS check failed: no credentials available for boto3], exits
    with 2 and does not call [subprocess.run], whatever the command line
    tool would have done. *)
Theorem no_credentials_run (st : State) :
  reports (check_with_boto3 w) (Failure (str "no-credentials")) ->
  fst (main w st) = Exited 2 /\
  st_stdout (snd (main w st)) =
  st_stdout st ++
  str "AWS check failed: no credentials available for boto3" ++ [10] /\
  st_spawned (snd (main w st)) = st_spawned st.
Proof.
  intros Hr. apply reports_boto3 in Hr. symmetry in Hr.
  rewrite (main_no_credentials st Hr). repeat split; reflexivity.
Qed.


(** Conversely, a success of either path ends with [sys.exit(0)] after
    the two prints. *)
Lemma success_run (st : State) (header : pystr) (data : pyval) :
  succeeds_with w header data ->
  main w st =
  (Exited 0,
   mkState (st_stdout st ++ header ++ [10] ++ json_dumps 2 data ++ [10])
           (match sdk_result w with
            | Success _ => st_spawned st
            | Failure _ => S (st_spawned st)
            end)
           (S (st_dotenv st))).
Proof.
  intros [v Hr|v Hr Hr2]; apply reports_boto3 in Hr; symmetry in Hr.
  - rewrite (main_primary_success st Hr), Hr.
    unfold emit, dotenv_called. cbn [st_stdout st_spawned st_dotenv].
    now rewrite <- !app_assoc.
  - apply reports_awscli in Hr2.
    rewrite (main_fallback st Hr), Hr2, Hr.
    unfold emit, spawn, dotenv_called. cbn [st_stdout st_spawned st_dotenv].
    now rewrite <- !app_assoc.
Qed.

(** ** The classification of the two checks *)

(** C7. [check_with_boto3] never raises and leaves the state alone; it
    returns the failure [boto3-not-available] when an import fails,
    [no-credentials], [endpoint-error: ..], [client-error: ..] or
    [unknown-error: ..] (with the text of the exception) when the client
    or the call raises, and the success carrying the response otherwise;
    [kind_of] tells the six results apart. *)
Theorem check_with_boto3_classifies (st : State) :
  check_with_boto3 w st = (Returned (sdk_result w), st) /\
  kind_of (sdk_result w) = Some (sdk_kind w) /\
  In (sdk_kind w) [KPrimaryUnavailable; KNoCredentials; KEndpointError;
                   KClientError; KUnknownError; KSuccess].
Proof.
  split; [apply check_with_boto3_returns|].
  split; [apply kind_of_sdk_result|].
  unfold sdk_kind. destruct (sdk_attempt w) as [e|e|resp]; cbn; auto 10.
  destruct (isinstance e NoCredentialsError); auto.
  destruct (isinstance e EndpointConnectionError); auto.
  destruct (isinstance e ClientError); auto 10.
Qed.


(** ** Errors that are not handled *)

(** C4, at the environment where [.env] cannot be read: the module-level
    [load_dotenv()] raises before [main] is reached, nothing is printed
    and the exception is not handled. *)
Theorem script_aborts_on_dotenv_failure :
  fst (script world_dotenv_unreadable initial)
  = Raised (mkExn PermissionError
              (str "[Errno 13] Permission denied: '.env'")) /\
  st_stdout (snd (script world_dotenv_unreadable initial)) = [] /\
  exit_status (fst (script world_dotenv_unreadable initial)) = 1%Z.
Proof. repeat split; reflexivity. Qed.

(** The same when python-dotenv is not installed: the import at the top
    of the module raises. *)
Lemma script_aborts_without_dotenv :
  fst (script world_no_dotenv initial)
  = Raised (mkExn ModuleNotFoundError (str "No module named 'dotenv'")).
Proof. reflexivity. Qed.

(** And when [subprocess.run] raises [PermissionError]. *)
Lemma script_aborts_on_permission_error :
  fst (script world_cli_not_executable initial) = Raised permission_denied.
Proof. reflexivity. Qed.

(** The [load_dotenv()] inside [main] is guarded: the same failure there
    is swallowed and the check goes on. *)
Lemma main_swallows_dotenv_failure (st : State) :
  fst (main world_dotenv_unreadable st) = Exited 0.
Proof. reflexivity. Qed.

End Properties.

(** * [json.loads] never runs out of fuel *)

Section Total.

Context {RT : PyRuntime}.

Lemma sound_scan_mono {A} (m n : nat) (r : scan A) :
  (m <= n)%nat -> sound_scan m r -> sound_scan n r.
Proof. destruct r; cbn; auto. lia. Qed.

Lemma sound_scan_map {A B} (f : A -> B) (n : nat) (r : scan A) :
  sound_scan n r -> sound_scan n (scan_map f r).
Proof. destruct r; cbn; auto. Qed.

Lemma sound_expecting_value {A} (n : nat) (r : scan A) :
  sound_scan n r -> sound_scan n (expecting_value r).
Proof. destruct r; cbn; auto. Qed.

Lemma skip_ws_length (s : pystr) :
  (List.length (skip_ws s) <= List.length s)%nat.
Proof.
  induction s as [|c r IH]; [reflexivity|]. cbn [skip_ws].
  destruct (is_ws c); cbn [List.length]; lia.
Qed.

Ltac split_scan :=
  repeat match goal with
    | |- sound_scan _ (if ?b then _ else _) => destruct b
    | |- sound_scan _ (match ?l with [] => _ | _ :: _ => _ end) =>
        destruct l
    | |- sound_scan _ (match ?o with Some _ => _ | None => _ end) =>
        destruct o
    end.

Lemma scanstring_sound (n : nat) :
  forall s, (List.length s <= n)%nat ->
            sound_scan (List.length s) (scanstring s).
Proof.
  induction n as [|n IH]; intros s Hn.
  - destruct s; [reflexivity|cbn in Hn; lia].
  - destruct s as [|c r]; [reflexivity|]. cbn [scanstring].
    split_scan; try reflexivity; try (cbn; lia);
      unfold scan_cons; apply sound_scan_map;
      (eapply sound_scan_mono; [|apply IH]; cbn [List.length] in *; lia).
Qed.

Lemma span_digits_length (s : pystr) :
  (List.length (snd (span_digits s)) <= List.length s)%nat.
Proof.
  induction s as [|c r IH]; [reflexivity|]. cbn [span_digits].
  destruct (is_digit c); [|reflexivity].
  destruct (span_digits r) as [ds r']. cbn [snd List.length] in *. lia.
Qed.

Lemma match_integer_length (s i r : pystr) :
  match_integer s = Some (i, r) -> (List.length r < List.length s)%nat.
Proof.
  unfold match_integer.
  destruct s as [|c s']; [discriminate|].
  destruct (c =? 45).
  - destruct s' as [|c2 s2]; [discriminate|].
    destruct (c2 =? 48); [intros [= _ <-]; cbn; lia|].
    destruct (is_digit c2); [|discriminate].
    pose proof (span_digits_length s2).
    destruct (span_digits s2) as [ds r']. intros [= _ <-].
    cbn [snd List.length] in *. lia.
  - destruct (c =? 48); [intros [= _ <-]; cbn; lia|].
    destruct (is_digit c); [|discriminate].
    pose proof (span_digits_length s').
    destruct (span_digits s') as [ds r']. intros [= _ <-].
    cbn [snd List.length] in *. lia.
Qed.

Lemma match_frac_length (s f r : pystr) :
  match_frac s = Some (f, r) -> (List.length r <= List.length s)%nat.
Proof.
  unfold match_frac. destruct s as [|c s']; [discriminate|].
  destruct (c =? 46); [|discriminate].
  pose proof (span_digits_length s').
  destruct (span_digits s') as [[|d ds] r']; [discriminate|].
  intros [= _ <-]. cbn [snd List.length] in *. lia.
Qed.

Lemma match_exp_length (s e r : pystr) :
  match_exp s = Some (e, r) -> (List.length r <= List.length s)%nat.
Proof.
  unfold match_exp. destruct s as [|c s']; [discriminate|].
  destruct ((c =? 101) || (c =? 69)); [|discriminate].
  destruct s' as [|c2 s2].
  - cbn. discriminate.
  - destruct ((c2 =? 43) || (c2 =? 45)).
    + pose proof (span_digits_length s2).
      destruct (span_digits s2) as [[|d ds] r']; [discriminate|].
      intros [= _ <-]. cbn [snd List.length] in *. lia.
    + pose proof (span_digits_length (c2 :: s2)).
      destruct (span_digits (c2 :: s2)) as [[|d ds] r']; [discriminate|].
      intros [= _ <-]. cbn [snd List.length] in *. lia.
Qed.

Lemma scan_number_length (s : pystr) (v : pyval) (r : pystr) :
  scan_number s = Some (v, r) -> (List.length r < List.length s)%nat.
Proof.
  unfold scan_number.
  destruct (match_integer s) as [[i r1]|] eqn:Ei; [|discriminate].
  apply match_integer_length in Ei.
  destruct (match_frac r1) as [[f r2]|] eqn:Ef.
  - apply match_frac_length in Ef.
    destruct (match_exp r2) as [[e r3]|] eqn:Ee.
    + apply match_exp_length in Ee. intros [= _ <-]. lia.
    + intros [= _ <-]. lia.
  - destruct (match_exp r1) as [[e r3]|] eqn:Ee.
    + apply match_exp_length in Ee. intros [= _ <-]. lia.
    + intros [= _ <-]. lia.
Qed.

Lemma strip_prefix_length (p s rest : pystr) :
  strip_prefix p s = Some rest ->
  (List.length rest + List.length p = List.length s)%nat.
Proof.
  revert s. induction p as [|a p IH]; intros s.
  - cbn. intros [= <-]. lia.
  - destruct s as [|b s]; [discriminate|]. cbn [strip_prefix].
    destruct (a =? b); [|discriminate]. intros H. apply IH in H.
    cbn [List.length]. lia.
Qed.

Lemma scan_constant_sound (name : string) (v : pyval) (s : pystr)
  (d : scan pyval) :
  str name <> [] ->
  sound_scan (List.length s) d ->
  sound_scan (List.length s) (or_else (scan_constant name v s) d).
Proof.
  intros Hn Hd. unfold scan_constant.
  destruct (strip_prefix (str name) s) as [rest|] eqn:E; [|exact Hd].
  apply strip_prefix_length in E. cbn [or_else sound_scan].
  destruct (str name); [contradiction|cbn [List.length] in E; lia].
Qed.

Lemma scan_rest_sound (s : pystr) : sound_scan (List.length s) (scan_rest s).
Proof.
  unfold scan_rest. destruct (scan_number s) as [[v r]|] eqn:E.
  - apply scan_number_length in E. exact E.
  - repeat (apply scan_constant_sound; [discriminate|]). exact I.
Qed.

(** With [2 * n + 1] units of fuel on a text of [n] characters the
    scanner never runs out. *)
Lemma scanner_sound (fuel : nat) :
  (forall s, (2 * List.length s + 1 <= fuel)%nat ->
             sound_scan (List.length s) (scan_once fuel s)) /\
  (forall s, (2 * List.length s + 2 <= fuel)%nat ->
             sound_scan (List.length s) (array_loop fuel s)) /\
  (forall s, (2 * List.length s + 2 <= fuel)%nat ->
             sound_scan (S (List.length s)) (object_loop fuel s)).
Proof.
  induction fuel as [|fuel (IHs & IHa & IHo)].
  { repeat split; intros s H; lia. }
  repeat split; intros s H.
  - cbn [scan_once]. destruct s as [|c r]; [exact I|].
    cbn [List.length] in H.
    destruct (c =? 34).
    { apply sound_scan_map. eapply sound_scan_mono;
        [|apply (@scanstring_sound (List.length r)); reflexivity].
      cbn; lia. }
    destruct (c =? 123).
    { pose proof (skip_ws_length r) as K.
      destruct (skip_ws r) as [|c1 r1]; [reflexivity|].
      cbn [List.length] in K.
      destruct (c1 =? 125); [cbn; lia|].
      destruct (c1 =? 34); [|reflexivity].
      apply sound_scan_map. eapply sound_scan_mono; [|apply IHo; lia].
      cbn [List.length]. lia. }
    destruct (c =? 91).
    { pose proof (skip_ws_length r) as K.
      destruct (skip_ws r) as [|c1 r1].
      - apply sound_scan_map. eapply sound_scan_mono; [|apply IHa; cbn; lia].
        cbn; lia.
      - cbn [List.length] in K. destruct (c1 =? 93); [cbn; lia|].
        apply sound_scan_map.
        eapply sound_scan_mono; [|apply IHa; cbn [List.length]; lia].
        cbn [List.length]. lia. }
    destruct (c =? 110);
      [apply scan_constant_sound; [discriminate|apply scan_rest_sound]|].
    destruct (c =? 116);
      [apply scan_constant_sound; [discriminate|apply scan_rest_sound]|].
    destruct (c =? 102);
      [apply scan_constant_sound; [discriminate|apply scan_rest_sound]|].
    apply scan_rest_sound.
  - cbn [array_loop].
    assert (E : sound_scan (List.length s)
                  (expecting_value (scan_once fuel s))).
    { apply sound_expecting_value, IHs. lia. }
    destruct (expecting_value (scan_once fuel s)) as [v rest| |c m];
      [|exact I|exact E].
    cbn [sound_scan] in E. pose proof (skip_ws_length rest) as K.
    destruct (skip_ws rest) as [|c r]; [reflexivity|].
    cbn [List.length] in K.
    destruct (c =? 93); [cbn; lia|].
    destruct (c =? 44); [|reflexivity].
    apply sound_scan_map. pose proof (skip_ws_length r) as K2.
    eapply sound_scan_mono; [|apply IHa; lia]. lia.
  - cbn [object_loop].
    pose proof (@scanstring_sound (List.length s) s (le_n _)) as E.
    destruct (scanstring s) as [key rest| |c m]; [|exact I|exact E].
    cbn [sound_scan] in E. pose proof (skip_ws_length rest) as K.
    destruct (skip_ws rest) as [|c r]; [reflexivity|].
    cbn [List.length] in K.
    destruct (c =? 58); [|reflexivity].
    pose proof (skip_ws_length r) as K2.
    assert (E2 : sound_scan (List.length (skip_ws r))
                   (expecting_value (scan_once fuel (skip_ws r)))).
    { apply sound_expecting_value, IHs. lia. }
    destruct (expecting_value (scan_once fuel (skip_ws r)))
      as [v rest2| |c' m]; [|exact I|exact E2].
    cbn [sound_scan] in E2. pose proof (skip_ws_length rest2) as K3.
    destruct (skip_ws rest2) as [|c2 r2]; [reflexivity|].
    cbn [List.length] in K3.
    destruct (c2 =? 125); [cbn; lia|].
    destruct (c2 =? 44); [|reflexivity].
    pose proof (skip_ws_length r2) as K4.
    destruct (skip_ws r2) as [|q r3]; [reflexivity|].
    cbn [List.length] in K4.
    destruct (q =? 34); [|reflexivity].
    apply sound_scan_map. eapply sound_scan_mono; [|apply IHo; lia]. lia.
Qed.

(** [json.loads] returns a value or raises [JSONDecodeError]: the fuel
    of the model is never the reason of a failure. *)
Lemma json_loads_total (s : pystr) :
  match json_loads s with
  | inr _ => True
  | inl e => exc_class e = JSONDecodeError
  end.
Proof.
  unfold json_loads.
  destruct (match s with c :: _ => c =? 65279 | [] => false end);
    [reflexivity|].
  pose proof (skip_ws_length s) as K.
  destruct (scanner_sound (S (2 * List.length s))) as (Hs & _ & _).
  specialize (Hs (skip_ws s) ltac:(lia)).
  apply sound_expecting_value in Hs.
  destruct (expecting_value (scan_once (S (2 * List.length s)) (skip_ws s)))
    as [v rest| |c m].
  - destruct (skip_ws rest); [exact I|reflexivity].
  - reflexivity.
  - cbn in Hs. subst c. reflexivity.
Qed.

End Total.

(** * Reading back what [json.dumps] prints *)

Section RoundTrip.

Context {RT : PyRuntime}.

Lemma holds_on_range_spec (f : N -> bool) (depth : nat) :
  forall lo, holds_on_range depth lo f = true ->
  forall k, lo <= k < lo + 2 ^ N.of_nat depth -> f k = true.
Proof.
  induction depth as [|d IH]; intros lo H k Hk.
  - cbn in *. assert (k = lo) by lia. now subst.
  - cbn [holds_on_range] in H. apply andb_true_iff in H as [H1 H2].
    rewrite Nat2N.inj_succ, N.pow_succ_r' in Hk.
    destruct (N.lt_ge_cases k (lo + 2 ^ N.of_nat d)).
    + apply (IH lo H1). lia.
    + apply (IH _ H2). lia.
Qed.

Lemma hexval_hexdigit (d : N) : d < 16 -> hexval (hexdigit d) = Some d.
Proof.
  intros H.
  assert (E : holds_on_range 4 0
                (fun d => match hexval (hexdigit d) with
                          | Some m => m =? d
                          | None => false
                          end) = true) by reflexivity.
  pose proof (@holds_on_range_spec _ _ _ E d) as K. cbn beta in K.
  destruct (hexval (hexdigit d)) as [m|].
  - f_equal. apply N.eqb_eq, K. cbn. lia.
  - discriminate K. cbn. lia.
Qed.

Lemma hex4_digits (n : N) :
  n < 65536 ->
  (n / 4096 mod 16) * 4096 + (n / 256 mod 16) * 256 +
  (n / 16 mod 16) * 16 + n mod 16 = n.
Proof.
  intros H.
  pose proof (N.div_mod n 4096 ltac:(discriminate)).
  pose proof (N.mod_lt n 4096 ltac:(discriminate)).
  assert (n / 4096 < 16) by (apply N.Div0.div_lt_upper_bound; lia).
  rewrite (N.mod_small (n / 4096) 16) by assumption.
  zify. Z.to_euclidean_division_equations. lia.
Qed.

Lemma hex4_value_hex4 (n : N) :
  n < 65536 ->
  hex4_value (hexdigit (n / 4096 mod 16)) (hexdigit (n / 256 mod 16))
             (hexdigit (n / 16 mod 16)) (hexdigit (n mod 16)) = Some n.
Proof.
  intros H. unfold hex4_value.
  rewrite !hexval_hexdigit by (apply N.mod_lt; discriminate).
  f_equal. now apply hex4_digits.
Qed.

Lemma lor_surrogate_base (x : N) :
  x < 1024 -> N.lor 55296 x = 55296 + x /\ N.lor 56320 x = 56320 + x.
Proof.
  intros H.
  assert (E : holds_on_range 10 0
                (fun x => (N.lor 55296 x =? 55296 + x) &&
                          (N.lor 56320 x =? 56320 + x)) = true)
    by (vm_compute; reflexivity).
  pose proof (@holds_on_range_spec _ _ _ E x) as K. cbn beta in K.
  assert (K' : 0 <= x < 0 + 2 ^ N.of_nat 10) by (cbn; lia).
  apply K in K'. apply andb_true_iff in K' as [K1 K2].
  apply N.eqb_eq in K1. apply N.eqb_eq in K2. split; assumption.
Qed.

Lemma land_1023 (x : N) : N.land x 1023 = x mod 1024.
Proof. change 1023 with (N.ones 10). now rewrite N.land_ones. Qed.

Lemma lor_shiftl_low (a b : N) :
  b < 1024 -> N.lor (N.shiftl a 10) b = a * 1024 + b.
Proof.
  intros H.
  assert (Z : N.land (N.shiftl a 10) b = 0).
  { apply N.bits_inj. intro i. rewrite N.land_spec, N.bits_0.
    destruct (N.lt_ge_cases i 10) as [L|G].
    - now rewrite N.shiftl_spec_low.
    - replace b with (b mod 2 ^ 10) by (apply N.mod_small; exact H).
      rewrite N.mod_pow2_bits_high by assumption. apply andb_false_r. }
  rewrite <- N.lxor_lor, <- N.add_nocarry_lxor by assumption.
  now rewrite N.shiftl_mul_pow2.
Qed.

Lemma surrogates_join (c : N) :
  65536 <= c < 1114112 ->
  let n := c - 65536 in
  let hi := N.lor 55296 (N.land (N.shiftr n 10) 1023) in
  let lo := N.lor 56320 (N.land n 1023) in
  hi < 65536 /\ lo < 65536 /\
  is_high_surrogate hi = true /\ is_low_surrogate lo = true /\
  join_surrogates hi lo = c.
Proof.
  intros H n hi lo.
  assert (Ha : N.land (N.shiftr n 10) 1023 < 1024).
  { rewrite land_1023. apply N.mod_lt. discriminate. }
  assert (Hb : N.land n 1023 < 1024).
  { rewrite land_1023. apply N.mod_lt. discriminate. }
  assert (Ehi : hi = 55296 + N.land (N.shiftr n 10) 1023).
  { unfold hi. now apply lor_surrogate_base. }
  assert (Elo : lo = 56320 + N.land n 1023).
  { unfold lo. now apply lor_surrogate_base. }
  unfold is_high_surrogate, is_low_surrogate, join_surrogates.
  rewrite Ehi, Elo.
  replace (55296 + N.land (N.shiftr n 10) 1023 - 55296)
    with (N.land (N.shiftr n 10) 1023) by lia.
  replace (56320 + N.land n 1023 - 56320) with (N.land n 1023) by lia.
  rewrite lor_shiftl_low by assumption.
  repeat split; try lia.
  - apply andb_true_iff. split; apply N.leb_le; lia.
  - apply andb_true_iff. split; apply N.leb_le; lia.
  - rewrite !land_1023, N.shiftr_div_pow2.
    assert (n < 1048576) by (unfold n; lia).
    change (2 ^ 10) with 1024.
    assert (n / 1024 < 1024) by (apply N.Div0.div_lt_upper_bound; lia).
    rewrite (N.mod_small (n / 1024)) by assumption.
    pose proof (N.div_mod n 1024 ltac:(discriminate)). unfold n in *. lia.
Qed.

Arguments hex4_value : simpl never.
Arguments is_high_surrogate : simpl never.
Arguments is_low_surrogate : simpl never.
Arguments join_surrogates : simpl never.
Arguments hexdigit : simpl never.

Lemma scanstring_u_escape (h1 h2 h3 h4 uni : N) (tail : pystr) :
  hex4_value h1 h2 h3 h4 = Some uni ->
  is_high_surrogate uni = false ->
  scanstring (92 :: 117 :: h1 :: h2 :: h3 :: h4 :: tail)
  = scan_cons uni (scanstring tail).
Proof.
  intros H Hs. cbn [scanstring N.eqb Pos.eqb]. rewrite H, Hs. cbn [andb].
  destruct tail as [|x [|y t]]; reflexivity.
Qed.

Lemma scanstring_u_pair (h1 h2 h3 h4 l1 l2 l3 l4 hi lo : N) (tail : pystr) :
  hex4_value h1 h2 h3 h4 = Some hi ->
  hex4_value l1 l2 l3 l4 = Some lo ->
  is_high_surrogate hi = true ->
  is_low_surrogate lo = true ->
  scanstring (92 :: 117 :: h1 :: h2 :: h3 :: h4 ::
              92 :: 117 :: l1 :: l2 :: l3 :: l4 :: tail)
  = scan_cons (join_surrogates hi lo) (scanstring tail).
Proof.
  intros H1 H2 Hh Hl. cbn [scanstring N.eqb Pos.eqb]. rewrite H1, Hh.
  cbn [andb N.eqb Pos.eqb]. rewrite H2, Hl. reflexivity.
Qed.

Lemma scalar_not_high (c : N) :
  is_scalar_value c = true -> is_high_surrogate c = false.
Proof.
  unfold is_scalar_value, is_high_surrogate. intros H.
  apply orb_true_iff in H as [H|H].
  - apply N.ltb_lt in H. apply andb_false_iff. left. apply N.leb_gt. lia.
  - apply andb_true_iff in H as [H _]. apply N.ltb_lt in H.
    apply andb_false_iff. right. apply N.leb_gt. lia.
Qed.

Lemma scanstring_encode_char (c : N) (tail : pystr) :
  is_scalar_value c = true ->
  scanstring (encode_char c ++ tail) = scan_cons c (scanstring tail).
Proof.
  intros Hc. unfold encode_char.
  destruct (N.eqb_spec c 34) as [->|N34]; [reflexivity|].
  destruct (N.eqb_spec c 92) as [->|N92]; [reflexivity|].
  destruct (N.eqb_spec c 10) as [->|N10]; [reflexivity|].
  destruct (N.eqb_spec c 13) as [->|N13]; [reflexivity|].
  destruct (N.eqb_spec c 9) as [->|N9]; [reflexivity|].
  destruct (N.eqb_spec c 12) as [->|N12]; [reflexivity|].
  destruct (N.eqb_spec c 8) as [->|N8]; [reflexivity|].
  destruct ((32 <=? c) && (c <=? 126)) eqn:Hp.
  { apply andb_true_iff in Hp as [Hp _]. apply N.leb_le in Hp.
    cbn [app scanstring].
    destruct (N.eqb_spec c 34); [contradiction|].
    destruct (N.eqb_spec c 92); [contradiction|].
    destruct (N.ltb_spec c 32); [lia|reflexivity]. }
  destruct (N.ltb_spec c 65536) as [Hlt|Hge].
  - unfold u_escape, hex4. cbn [app].
    apply scanstring_u_escape; [now apply hex4_value_hex4|].
    now apply scalar_not_high.
  - assert (Hr : 65536 <= c < 1114112).
    { split; [assumption|]. unfold is_scalar_value in Hc.
      apply orb_true_iff in Hc as [H|H].
      - apply N.ltb_lt in H. lia.
      - apply andb_true_iff in H as [_ H]. now apply N.ltb_lt in H. }
    destruct (surrogates_join Hr) as (Hhi & Hlo & Hh & Hl & Hj).
    cbv zeta. unfold u_escape, hex4. cbn [app].
    erewrite scanstring_u_pair;
      [now rewrite Hj
      |now apply hex4_value_hex4 |now apply hex4_value_hex4
      |assumption |assumption].
Qed.

Lemma scanstring_encoded (s : pystr) (rest : pystr) :
  valid_text s = true ->
  scanstring (flat_map encode_char s ++ 34 :: rest) = Scanned s rest.
Proof.
  induction s as [|c s IH]; intros H; [reflexivity|].
  cbn [valid_text forallb] in H. apply andb_true_iff in H as [Hc Hs].
  cbn [flat_map]. rewrite <- app_assoc, scanstring_encode_char by assumption.
  unfold valid_text in IH. now rewrite IH.
Qed.

Lemma span_digits_stop (rest : pystr) :
  ends_value rest = true -> span_digits rest = ([], rest).
Proof.
  destruct rest as [|c r]; [reflexivity|]. cbn [ends_value span_digits].
  intros H. apply orb_true_iff in H as [H|H]; apply N.eqb_eq in H; now subst.
Qed.

Lemma span_digits_uint (d : Decimal.uint) (rest : pystr) :
  ends_value rest = true ->
  span_digits (uint_digits d ++ rest) = (uint_digits d, rest).
Proof.
  intros H. induction d; cbn [uint_digits app];
    [now apply span_digits_stop|..];
    cbn [span_digits]; rewrite IHd; reflexivity.
Qed.

Lemma digits_uint_uint_digits (d : Decimal.uint) :
  digits_uint (uint_digits d) = d.
Proof. induction d; cbn; now rewrite ?IHd. Qed.

Lemma to_uint_leading_nonzero (p : positive) :
  leading_nonzero (Pos.to_uint p).
Proof.
  assert (U : Decimal.unorm (Pos.to_uint p) = Pos.to_uint p).
  { rewrite <- (DecimalPos.Unsigned.to_of (Pos.to_uint p)).
    now rewrite DecimalPos.Unsigned.of_to. }
  pose proof (DecimalPos.Unsigned.to_uint_nonzero p) as NZ.
  destruct (Pos.to_uint p) as [|u|u|u|u|u|u|u|u|u|u] eqn:E; cbn; trivial.
  - now apply (DecimalPos.Unsigned.to_uint_nonnil p).
  - rewrite unorm_D0 in U. unfold Decimal.unorm in U.
    destruct (Decimal.nzhead u) eqn:En; try discriminate U.
    + apply NZ. symmetry. exact U.
    + apply (nzhead_nonzero u u). now rewrite En.
Qed.

Lemma match_frac_stop (rest : pystr) :
  ends_value rest = true -> match_frac rest = None.
Proof.
  destruct rest as [|c r]; [reflexivity|]. cbn [ends_value match_frac].
  intros H. apply orb_true_iff in H as [H|H]; apply N.eqb_eq in H; now subst.
Qed.

Lemma match_exp_stop (rest : pystr) :
  ends_value rest = true -> match_exp rest = None.
Proof.
  destruct rest as [|c r]; [reflexivity|]. cbn [ends_value match_exp].
  intros H. apply orb_true_iff in H as [H|H]; apply N.eqb_eq in H; now subst.
Qed.

Lemma match_integer_digits (d : Decimal.uint) (rest : pystr) :
  leading_nonzero d -> ends_value rest = true ->
  match_integer (uint_digits d ++ rest) = Some (uint_digits d, rest) /\
  match_integer (45 :: uint_digits d ++ rest)
  = Some (45 :: uint_digits d, rest).
Proof.
  intros L H. destruct d; try contradiction;
    cbn [uint_digits app]; unfold match_integer;
    cbn [N.eqb Pos.eqb is_digit N.leb N.compare Pos.compare Pos.compare_cont
         andb app];
    rewrite span_digits_uint by exact H; split; reflexivity.
Qed.

Lemma int_of_literal_digits (d : Decimal.uint) :
  leading_nonzero d ->
  int_of_literal (uint_digits d) = Z.of_N (N.of_uint d) /\
  int_of_literal (45 :: uint_digits d) = Z.opp (Z.of_N (N.of_uint d)).
Proof.
  intros L. split.
  - destruct d; try contradiction; unfold int_of_literal;
      cbn [uint_digits digits_uint N.eqb Pos.eqb];
      rewrite digits_uint_uint_digits; reflexivity.
  - unfold int_of_literal. cbn [N.eqb Pos.eqb].
    now rewrite digits_uint_uint_digits.
Qed.

Lemma scan_number_int (z : Z) (rest : pystr) :
  ends_value rest = true ->
  scan_number (int_repr z ++ rest) = Some (PInt z, rest).
Proof.
  intros H. unfold scan_number. destruct z as [|p|p]; unfold int_repr.
  - cbn [app]. unfold match_integer. cbn [N.eqb Pos.eqb app].
    now rewrite match_frac_stop, match_exp_stop.
  - destruct (@match_integer_digits (Pos.to_uint p) rest
                (to_uint_leading_nonzero p) H) as [M _].
    rewrite M, match_frac_stop, match_exp_stop by assumption.
    destruct (@int_of_literal_digits (Pos.to_uint p)
                (to_uint_leading_nonzero p)) as [I _].
    rewrite I. unfold N.of_uint. now rewrite DecimalPos.Unsigned.of_to.
  - cbn [app].
    destruct (@match_integer_digits (Pos.to_uint p) rest
                (to_uint_leading_nonzero p) H) as [_ M].
    rewrite M, match_frac_stop, match_exp_stop by assumption.
    destruct (@int_of_literal_digits (Pos.to_uint p)
                (to_uint_leading_nonzero p)) as [_ I].
    rewrite I. unfold N.of_uint. now rewrite DecimalPos.Unsigned.of_to.
Qed.

Lemma pyval_induction (P : pyval -> Prop) :
  P PNone ->
  (forall b, P (PBool b)) ->
  (forall z, P (PInt z)) ->
  (forall f, P (PFloat f)) ->
  (forall s, P (PStr s)) ->
  (forall l, Forall P l -> P (PList l)) ->
  (forall d, Forall (fun kv => P (snd kv)) d -> P (PDict d)) ->
  forall v, P v.
Proof.
  intros HN HB HI HF HS HL HD. fix IH 1. intros [|b|z|f|s|l|d].
  - exact HN.
  - apply HB.
  - apply HI.
  - apply HF.
  - apply HS.
  - apply HL. induction l as [|e l IHl]; constructor; [apply IH|exact IHl].
  - apply HD. induction d as [|kv d IHd]; constructor; [apply IH|exact IHd].
Qed.

Lemma join_cons (sep p : pystr) (ps : list pystr) (t : pystr) :
  join sep (p :: ps) ++ t = p ++ join_tail sep ps t.
Proof.
  destruct ps as [|q ps]; [reflexivity|].
  cbn [join join_tail]. now rewrite <- !app_assoc.
Qed.

Lemma starts_value_no_ws (s : pystr) :
  starts_value s = true -> no_ws_ahead s = true.
Proof.
  destruct s as [|c r]; [reflexivity|]. cbn [starts_value no_ws_ahead].
  destruct (is_ws c); [discriminate|reflexivity].
Qed.

Lemma skip_ws_start (s : pystr) : no_ws_ahead s = true -> skip_ws s = s.
Proof.
  destruct s as [|c r]; [reflexivity|]. cbn [no_ws_ahead skip_ws].
  destruct (is_ws c); [discriminate|reflexivity].
Qed.

Lemma skip_ws_spaces (n : nat) (s : pystr) :
  skip_ws (repeat 32 n ++ s) = skip_ws s.
Proof. induction n as [|n IH]; [reflexivity|exact IH]. Qed.

Lemma skip_ws_newline_indent (indent lvl : nat) (s : pystr) :
  no_ws_ahead s = true -> skip_ws (newline_indent indent lvl ++ s) = s.
Proof.
  intros H. unfold newline_indent. cbn [app skip_ws is_ws N.eqb Pos.eqb orb].
  rewrite skip_ws_spaces. now apply skip_ws_start.
Qed.

Section Floats.

Variable okf : pyfloat -> bool.

Hypothesis okf_reads_back : forall f, okf f = true -> float_reads_back f.

Lemma starts_value_app (s t : pystr) :
  starts_value s = true -> starts_value (s ++ t) = true.
Proof. destruct s; [discriminate|intros H; exact H]. Qed.

Lemma uint_digits_start (d : Decimal.uint) (t : pystr) :
  leading_nonzero d -> starts_value (uint_digits d ++ t) = true.
Proof. destruct d; try contradiction; reflexivity. Qed.

Lemma iterencode_start (indent lvl : nat) (v : pyval) (t : pystr) :
  valid_json_with okf v = true ->
  starts_value (iterencode indent lvl v ++ t) = true.
Proof.
  destruct v as [|[|]|[|p|p]|f|s|[|e l]|[|kv d]]; try reflexivity.
  - intros _. apply uint_digits_start, to_uint_leading_nonzero.
  - intros H. cbn [valid_json_with] in H. cbn [iterencode].
    apply starts_value_app. now apply okf_reads_back.
Qed.

Lemma encode_item_start (indent lvl : nat) (kv : pystr * pyval) (t : pystr) :
  starts_value (encode_item indent lvl kv ++ t) = true.
Proof. reflexivity. Qed.

Lemma distinct_NoDup (ks : list pystr) : distinct ks = true -> NoDup ks.
Proof.
  induction ks as [|k r IH]; [constructor|]. cbn [distinct]. intros H.
  apply andb_true_iff in H as [H1 H2]. constructor; [|now apply IH].
  intros Hin. apply negb_true_iff in H1.
  assert (existsb (pystr_eqb k) r = true); [|congruence].
  apply existsb_exists. exists k. split; [assumption|apply pystr_eqb_refl].
Qed.

Lemma dict_set_fresh (k : pystr) (v : pyval) (acc : list (pystr * pyval)) :
  ~ In k (map fst acc) -> dict_set k v acc = acc ++ [(k, v)].
Proof.
  induction acc as [|[k' v'] acc IH]; [reflexivity|]. cbn. intros H.
  destruct (pystr_eqb k' k) eqn:E.
  - apply pystr_eqb_eq in E. tauto.
  - f_equal. apply IH. tauto.
Qed.

Lemma dict_of_pairs_distinct (d : list (pystr * pyval)) :
  distinct (map fst d) = true -> dict_of_pairs d = d.
Proof.
  intros H. apply distinct_NoDup in H. unfold dict_of_pairs.
  change d with ([] ++ d) in H. change d with ([] ++ d) at 2.
  generalize dependent (@nil (pystr * pyval)).
  induction d as [|[k v] d IH]; intros acc H.
  - cbn. now rewrite List.app_nil_r.
  - cbn [fold_left fst snd]. rewrite dict_set_fresh.
    + rewrite IH; rewrite <- app_assoc; [reflexivity|exact H].
    + rewrite map_app in H. cbn in H. apply NoDup_remove_2 in H.
      intros Hin. apply H. apply in_or_app. now left.
Qed.

Lemma iterencode_list (indent lvl : nat) (e : pyval) (l : list pyval) :
  iterencode indent lvl (PList (e :: l)) =
  91 :: newline_indent indent (S lvl) ++
  join (44 :: newline_indent indent (S lvl))
       (map (iterencode indent (S lvl)) (e :: l)) ++
  newline_indent indent lvl ++ [93].
Proof. reflexivity. Qed.

Lemma iterencode_dict (indent lvl : nat) (kv : pystr * pyval)
  (d : list (pystr * pyval)) :
  iterencode indent lvl (PDict (kv :: d)) =
  123 :: newline_indent indent (S lvl) ++
  join (44 :: newline_indent indent (S lvl))
       (map (encode_item indent (S lvl)) (kv :: d)) ++
  newline_indent indent lvl ++ [125].
Proof. reflexivity. Qed.

Lemma ends_value_newline (indent lvl : nat) (t : pystr) :
  ends_value (newline_indent indent lvl ++ t) = true.
Proof. reflexivity. Qed.

Lemma ends_value_join_tail (sep' : pystr) (ps : list pystr) (indent lvl : nat)
  (t : pystr) :
  ends_value (join_tail (44 :: sep') ps (newline_indent indent lvl ++ t))
  = true.
Proof. destruct ps; reflexivity. Qed.

Lemma array_loop_encoded (indent lvl lvl' : nat) (l : list pyval) :
  Forall (scans_back okf) l ->
  forallb (valid_json_with okf) l = true ->
  forall e fuel rest,
    scans_back okf e -> valid_json_with okf e = true ->
    (S (scan_calls e) + list_sum (map (fun x => S (scan_calls x)) l)
     <= fuel)%nat ->
    array_loop fuel
      (iterencode indent lvl e ++
       join_tail (44 :: newline_indent indent lvl)
         (map (iterencode indent lvl) l)
         (newline_indent indent lvl' ++ 93 :: rest))
    = Scanned (e :: l) rest.
Proof.
  induction l as [|e2 l IH]; intros Hall Hval e fuel rest He Hve Hfuel;
    (destruct fuel as [|fuel]; [cbn in Hfuel; lia|]);
    cbn [array_loop].
  - cbn [map join_tail].
    rewrite He; [|assumption|cbn in Hfuel; lia|reflexivity].
    cbn [expecting_value]. rewrite skip_ws_newline_indent by reflexivity.
    reflexivity.
  - inversion Hall as [|? ? He2 Hall']; subst.
    cbn [forallb] in Hval. apply andb_true_iff in Hval as [Hve2 Hval'].
    cbn [map] in Hfuel. unfold list_sum in *. cbn [fold_right] in Hfuel.
    rewrite He; [|assumption|lia|apply ends_value_join_tail].
    cbn [expecting_value map join_tail].
    rewrite join_cons. cbn [app skip_ws is_ws N.eqb Pos.eqb orb].
    rewrite skip_ws_newline_indent
      by (now apply starts_value_no_ws, iterencode_start).
    rewrite IH; [reflexivity|assumption..|lia].
Qed.

Lemma encode_item_tl (indent lvl : nat) (k : pystr) (v : pyval) (t : pystr) :
  encode_item indent lvl (k, v) ++ t =
  34 :: flat_map encode_char k ++
  34 :: 58 :: 32 :: iterencode indent lvl v ++ t.
Proof.
  unfold encode_item, py_encode_basestring_ascii. cbn [fst snd].
  change (str ": ") with [58; 32].
  cbn [app]. now rewrite <- !app_assoc.
Qed.

Lemma object_loop_encoded (indent lvl lvl' : nat) (d : list (pystr * pyval)) :
  Forall (fun kv => scans_back okf (snd kv)) d ->
  forallb (fun kv => valid_text (fst kv) && valid_json_with okf (snd kv)) d
  = true ->
  forall k v fuel rest,
    scans_back okf v -> valid_text k = true -> valid_json_with okf v = true ->
    (S (scan_calls v) + list_sum (map (fun kv => S (scan_calls (snd kv))) d)
     <= fuel)%nat ->
    object_loop fuel
      (flat_map encode_char k ++
       34 :: 58 :: 32 :: iterencode indent lvl v ++
       join_tail (44 :: newline_indent indent lvl)
         (map (encode_item indent lvl) d)
         (newline_indent indent lvl' ++ 125 :: rest))
    = Scanned ((k, v) :: d) rest.
Proof.
  induction d as [|[k2 v2] d IH];
    intros Hall Hval k v fuel rest Hv Hk Hvv Hfuel;
    (destruct fuel as [|fuel]; [cbn in Hfuel; lia|]);
    cbn [object_loop]; rewrite scanstring_encoded by assumption;
    cbn [skip_ws is_ws N.eqb Pos.eqb orb];
    rewrite skip_ws_start by (now apply starts_value_no_ws, iterencode_start).
  - cbn [map join_tail].
    rewrite Hv; [|assumption|cbn in Hfuel; lia|reflexivity].
    cbn [expecting_value]. rewrite skip_ws_newline_indent by reflexivity.
    reflexivity.
  - inversion Hall as [|? ? Hv2 Hall']; subst. cbn [snd] in Hv2.
    cbn [forallb fst snd] in Hval.
    apply andb_true_iff in Hval as [Hkv2 Hval'].
    apply andb_true_iff in Hkv2 as [Hk2 Hvv2].
    cbn [map snd] in Hfuel. unfold list_sum in *. cbn [fold_right] in Hfuel.
    rewrite Hv; [|assumption|lia|apply ends_value_join_tail].
    cbn [expecting_value map join_tail].
    rewrite join_cons. cbn [app skip_ws is_ws N.eqb Pos.eqb orb].
    rewrite skip_ws_newline_indent by reflexivity.
    rewrite encode_item_tl. cbn [N.eqb Pos.eqb].
    rewrite IH; [reflexivity|assumption..|lia].
Qed.

Lemma iterencode_scans_back (v : pyval) : scans_back okf v.
Proof.
  induction v as [|b|z|f|s|l IHl|d IHd] using pyval_induction;
    intros Hv indent lvl fuel rest Hfuel Hrest;
    (destruct fuel as [|fuel]; [cbn in Hfuel; lia|]).
  - reflexivity.
  - destruct b; reflexivity.
  - destruct (iterencode indent lvl (PInt z) ++ rest) as [|c r] eqn:E.
    { pose proof (iterencode_start indent lvl (PInt z) rest Hv) as S0.
      rewrite E in S0. discriminate. }
    assert (scan_rest (c :: r) = Scanned (PInt z) rest) as R.
    { rewrite <- E. unfold scan_rest. cbn [iterencode].
      now rewrite scan_number_int. }
    destruct z as [|p|p]; cbn [iterencode int_repr app] in E.
    + injection E as <- <-. cbn [scan_once N.eqb Pos.eqb]. exact R.
    + pose proof (to_uint_leading_nonzero p) as L.
      destruct (Pos.to_uint p); try contradiction;
        cbn [uint_digits app] in E; injection E as <- <-;
        cbn [scan_once N.eqb Pos.eqb]; exact R.
    + injection E as <- <-. cbn [scan_once N.eqb Pos.eqb]. exact R.
  - cbn [valid_json_with] in Hv. cbn [iterencode].
    now apply okf_reads_back.
  - cbn [iterencode]. unfold py_encode_basestring_ascii.
    cbn [app scan_once N.eqb Pos.eqb]. rewrite <- app_assoc. cbn [app].
    cbn [valid_json_with] in Hv. now rewrite scanstring_encoded.
  - destruct l as [|e l]; [reflexivity|].
    rewrite iterencode_list. cbn [app scan_once N.eqb Pos.eqb].
    rewrite <- !app_assoc. cbn [map app]. rewrite join_cons.
    cbn [valid_json_with forallb] in Hv. apply andb_true_iff in Hv as [Hve Hvl].
    inversion IHl as [|? ? He Hl]; subst.
    pose proof (iterencode_start indent (S lvl) e
      (join_tail (44 :: newline_indent indent (S lvl))
         (map (iterencode indent (S lvl)) l)
         (newline_indent indent lvl ++ 93 :: rest)) Hve) as S0.
    rewrite skip_ws_newline_indent by (now apply starts_value_no_ws).
    destruct (iterencode indent (S lvl) e ++ _) as [|c1 r1] eqn:E;
      [discriminate|].
    cbn [starts_value] in S0.
    destruct (c1 =? 93); [now rewrite andb_false_r in S0|].
    rewrite <- E, array_loop_encoded; try assumption; [reflexivity|].
    cbn [scan_calls map] in Hfuel. unfold list_sum in *.
    cbn [fold_right] in Hfuel. lia.
  - destruct d as [|[k v] d]; [reflexivity|].
    rewrite iterencode_dict. cbn [app scan_once N.eqb Pos.eqb].
    rewrite <- !app_assoc. cbn [map app]. rewrite join_cons.
    cbn [valid_json_with forallb map fst snd] in Hv.
    apply andb_true_iff in Hv as [Hdis Hv].
    apply andb_true_iff in Hv as [Hkv Hvd].
    apply andb_true_iff in Hkv as [Hk Hvv].
    inversion IHd as [|? ? Hsv Hd]; subst. cbn [snd] in Hsv.
    rewrite skip_ws_newline_indent by reflexivity.
    rewrite encode_item_tl. cbn [N.eqb Pos.eqb].
    rewrite object_loop_encoded; try assumption.
    + cbn [scan_map]. now rewrite dict_of_pairs_distinct.
    + cbn [scan_calls map snd] in Hfuel. unfold list_sum in *.
      cbn [fold_right] in Hfuel. lia.
Qed.

Lemma join_length (sep : pystr) (ps : list pystr) :
  sep <> [] ->
  (list_sum (map (fun p => S (List.length p)) ps)
   <= S (List.length (join sep ps)))%nat.
Proof.
  intros Hsep. induction ps as [|p ps IH]; [cbn; lia|].
  destruct ps as [|q ps]; [cbn; lia|].
  change (join sep (p :: q :: ps)) with (p ++ sep ++ join sep (q :: ps)).
  rewrite !length_app. cbn [map] in *. unfold list_sum in *.
  cbn [fold_right] in *.
  destruct sep as [|c sep]; [contradiction|]. cbn [List.length]. lia.
Qed.

Lemma list_sum_le {A} (f g : A -> nat) (l : list A) :
  Forall (fun x => f x <= g x)%nat l ->
  (list_sum (map f l) <= list_sum (map g l))%nat.
Proof.
  induction 1 as [|x l Hx _ IH]; [reflexivity|].
  cbn [map]. unfold list_sum in *. cbn [fold_right]. lia.
Qed.

Lemma newline_indent_length (indent lvl : nat) :
  (1 <= List.length (newline_indent indent lvl))%nat.
Proof. unfold newline_indent. cbn [List.length]. lia. Qed.

Lemma scan_calls_length (v : pyval) :
  valid_json_with okf v = true ->
  forall indent lvl,
    (scan_calls v <= List.length (iterencode indent lvl v))%nat.
Proof.
  induction v as [|b|z|f|s|l IHl|d IHd] using pyval_induction;
    intros Hv indent lvl.
  - cbn. lia.
  - destruct b; cbn; lia.
  - pose proof (iterencode_start indent lvl (PInt z) [] Hv) as S0.
    rewrite List.app_nil_r in S0.
    destruct (iterencode indent lvl (PInt z)); [discriminate|cbn; lia].
  - cbn [valid_json_with] in Hv.
    destruct (okf_reads_back Hv) as [S0 _]. cbn [iterencode scan_calls].
    destruct (floatstr f); [discriminate|cbn; lia].
  - cbn [iterencode scan_calls]. unfold py_encode_basestring_ascii.
    cbn [List.length]. lia.
  - destruct l as [|e l]; [cbn; lia|].
    rewrite iterencode_list. cbn [scan_calls List.length].
    rewrite !length_app. cbn [List.length].
    pose proof (newline_indent_length indent (S lvl)).
    pose proof (newline_indent_length indent lvl).
    pose proof (@join_length (44 :: newline_indent indent (S lvl))
                  (map (iterencode indent (S lvl)) (e :: l))
                  ltac:(discriminate)) as J.
    rewrite map_map in J.
    assert (list_sum (map (fun x => S (scan_calls x)) (e :: l))
            <= list_sum (map (fun x => S (List.length
                                            (iterencode indent (S lvl) x)))
                             (e :: l)))%nat as K.
    { apply list_sum_le. cbn [valid_json_with] in Hv.
      rewrite forallb_forall in Hv. rewrite Forall_forall in *.
      intros x Hx. apply le_n_S. apply IHl; [assumption|now apply Hv]. }
    lia.
  - destruct d as [|kv d]; [cbn; lia|].
    rewrite iterencode_dict. cbn [scan_calls List.length].
    rewrite !length_app. cbn [List.length].
    pose proof (newline_indent_length indent (S lvl)).
    pose proof (newline_indent_length indent lvl).
    pose proof (@join_length (44 :: newline_indent indent (S lvl))
                  (map (encode_item indent (S lvl)) (kv :: d))
                  ltac:(discriminate)) as J.
    rewrite map_map in J.
    assert (list_sum (map (fun x => S (scan_calls (snd x))) (kv :: d))
            <= list_sum (map (fun x => S (List.length
                                            (encode_item indent (S lvl) x)))
                             (kv :: d)))%nat as K.
    { apply list_sum_le. cbn [valid_json_with] in Hv.
      apply andb_true_iff in Hv as [_ Hv].
      rewrite forallb_forall in Hv. rewrite Forall_forall in *.
      intros x Hx. apply le_n_S. unfold encode_item. rewrite !length_app.
      specialize (Hv x Hx). apply andb_true_iff in Hv as [_ Hv].
      specialize (IHd x Hx Hv indent (S lvl)). lia. }
    lia.
Qed.

(** A valid payload printed by [json.dumps], with or without the newline
    [print] adds, is read back by [json.loads] as the same value. *)
Lemma json_loads_dumps (indent : nat) (v : pyval) (nl : pystr) :
  valid_json_with okf v = true ->
  nl = [] \/ nl = [10] ->
  json_loads (json_dumps indent v ++ nl) = inr v.
Proof.
  intros Hv Hnl. unfold json_loads, json_dumps.
  pose proof (iterencode_start indent 0 v nl Hv) as S0.
  rewrite (skip_ws_start _ (starts_value_no_ws _ S0)).
  rewrite iterencode_scans_back; try assumption.
  - destruct (iterencode indent 0 v ++ nl) as [|c r]; [discriminate|].
    cbn [starts_value] in S0.
    destruct (c =? 65279); [now rewrite andb_false_r in S0|].
    cbn [expecting_value]. destruct Hnl as [-> | ->]; reflexivity.
  - pose proof (scan_calls_length v Hv indent 0). rewrite length_app. lia.
  - destruct Hnl as [-> | ->]; reflexivity.
Qed.

End Floats.

Lemma after_first_line_app (h body : pystr) :
  forallb (fun c => negb (c =? 10)) h = true ->
  after_first_line (h ++ 10 :: body) = body.
Proof.
  induction h as [|c h IH]; [reflexivity|]. cbn [forallb app after_first_line].
  intros H. apply andb_true_iff in H as [Hc Hh].
  apply negb_true_iff in Hc. rewrite Hc. now apply IH.
Qed.

(** What a successful run prints after its first line is read back as
    the payload, float leaves included when the runtime reads them back. *)
Lemma printed_json_read_back (okf : pyfloat -> bool) (w : World)
  (header : pystr) (data : pyval) :
  (forall f, okf f = true -> float_reads_back f) ->
  succeeds_with w header data ->
  valid_json_with okf data = true ->
  json_loads (after_first_line (st_stdout (snd (main w initial)))) = inr data.
Proof.
  intros Hf Hs Hv. rewrite (success_run initial Hs).
  cbn [snd st_stdout initial app]. rewrite after_first_line_app.
  - apply (@json_loads_dumps okf Hf); [exact Hv|now right].
  - destruct Hs; reflexivity.
Qed.


End RoundTrip.

(** * More on the runs of the script *)

Section Runs.
Context {RT : PyRuntime}.
Variable w : World.

Lemma sdk_result_unavailable :
  sdk_result w = Failure (str "boto3-not-available") <->
  exists e, sdk_attempt w = SdkImportFailed e.
Proof.
  unfold sdk_result. destruct (sdk_attempt w) as [e|e|resp].
  - split; [eauto|reflexivity].
  - split; [|intros [x H]; discriminate].
    destruct (isinstance e NoCredentialsError); [discriminate|].
    destruct (isinstance e EndpointConnectionError); [discriminate|].
    destruct (isinstance e ClientError); discriminate.
  - split; [discriminate|intros [x H]; discriminate].
Qed.

Lemma sdk_result_no_credentials :
  sdk_result w = Failure (str "no-credentials") <->
  exists e, sdk_attempt w = SdkRaised e /\
            isinstance e NoCredentialsError = true.
Proof.
  unfold sdk_result. destruct (sdk_attempt w) as [e|e|resp].
  - split; [discriminate|intros [x [H _]]; discriminate].
  - destruct (isinstance e NoCredentialsError) eqn:E1.
    { split; [eauto|reflexivity]. }
    split; [|intros [x [[= <-] H]]; congruence].
    destruct (isinstance e EndpointConnectionError); [discriminate|].
    destruct (isinstance e ClientError); discriminate.
  - split; [discriminate|intros [x [H _]]; discriminate].
Qed.

(** How [main] ends and how often it calls [subprocess.run], from the
    environment. *)
Lemma main_ends_as (st : State) :
  fst (main w st) = ending w /\
  st_spawned (snd (main w st)) =
  match sdk_attempt w with
  | SdkImportFailed _ => S (st_spawned st)
  | _ => st_spawned st
  end.
Proof.
  unfold ending. destruct (sdk_attempt w) as [e|e|resp] eqn:A.
  - assert (U : sdk_result w = Failure (str "boto3-not-available")).
    { apply sdk_result_unavailable. eauto. }
    rewrite (main_fallback w st U). unfold cli_result.
    destruct (subprocess_run w) as [x|proc].
    + destruct (isinstance x FileNotFoundError); split; reflexivity.
    + destruct (returncode proc =? 0)%Z; [|split; reflexivity].
      destruct (json_loads (stdout proc)); split; reflexivity.
  - destruct (isinstance e NoCredentialsError) eqn:E1.
    + assert (U : sdk_result w = Failure (str "no-credentials")).
      { apply sdk_result_no_credentials. eauto. }
      rewrite (main_no_credentials w st U). split; reflexivity.
    + destruct (sdk_result w) as [v|d] eqn:R.
      { unfold sdk_result in R. rewrite A, E1 in R.
        destruct (isinstance e EndpointConnectionError); [discriminate|].
        destruct (isinstance e ClientError); discriminate. }
      rewrite (main_other_failure w st R); [split; reflexivity| |].
      * intros ->. apply sdk_result_unavailable in R as [x R]. congruence.
      * intros ->. apply sdk_result_no_credentials in R as [x [R1 R2]].
        congruence.
  - assert (U : sdk_result w = Success resp).
    { unfold sdk_result. now rewrite A. }
    rewrite (main_primary_success w st U). split; reflexivity.
Qed.

(** What [main] writes, by the way it ends. *)
Lemma main_output (st : State) :
  exists out,
    st_stdout (snd (main w st)) = st_stdout st ++ out /\
    match fst (main w st) with
    | Exited code =>
        has_prefix (if (code =? 0)%Z then str "AWS reachable via "
                    else str "AWS check failed") out = true /\
        last out 0 = 10
    | Raised _ => out = []
    | Returned _ => False
    end.
Proof.
  destruct (sdk_result w) as [v|d] eqn:R.
  { rewrite (main_primary_success w st R).
    exists (str "AWS reachable via boto3:" ++ [10] ++ json_dumps 2 v ++ [10]).
    unfold emit, dotenv_called. cbn [fst snd st_stdout].
    split; [now rewrite <- !app_assoc|]. split; [reflexivity|].
    rewrite !app_assoc. apply last_last. }
  destruct (pystr_eqb d (str "boto3-not-available")) eqn:E1.
  { apply pystr_eqb_eq in E1. subst d. rewrite (main_fallback w st R).
    destruct (cli_result w) as [[v|d]|e|c] eqn:C.
    - exists (str "AWS reachable via aws-cli:" ++ [10] ++
              json_dumps 2 v ++ [10]).
      unfold emit, spawn, dotenv_called. cbn [fst snd st_stdout].
      split; [now rewrite <- !app_assoc|]. split; [reflexivity|].
      rewrite !app_assoc. apply last_last.
    - exists (str "AWS check failed (aws-cli): " ++ d ++ [10]).
      unfold emit, spawn, dotenv_called. cbn [fst snd st_stdout].
      split; [now rewrite <- !app_assoc|]. split; [reflexivity|].
      rewrite !app_assoc. apply last_last.
    - exists []. cbn. split; [now rewrite List.app_nil_r|reflexivity].
    - unfold cli_result in C. destruct (subprocess_run w) as [x|proc].
      + destruct (isinstance x FileNotFoundError); discriminate.
      + destruct (returncode proc =? 0)%Z; [|discriminate].
        destruct (json_loads (stdout proc)); discriminate. }
  destruct (pystr_eqb d (str "no-credentials")) eqn:E2.
  { apply pystr_eqb_eq in E2. subst d. rewrite (main_no_credentials w st R).
    exists (str "AWS check failed: no credentials available for boto3"
            ++ [10]).
    repeat split. }
  rewrite (main_other_failure w st R).
  - exists (str "AWS check failed (boto3): " ++ d ++ [10]).
    unfold emit, dotenv_called. cbn [fst snd st_stdout].
    split; [now rewrite <- !app_assoc|]. split; [reflexivity|].
    rewrite !app_assoc. apply last_last.
  - intros ->. now rewrite pystr_eqb_refl in E1.
  - intros ->. now rewrite pystr_eqb_refl in E2.
Qed.

(** The module before [main]: it stops on what [prelude] gives, having
    printed and spawned nothing, or hands over to [main]. *)
Lemma script_prelude :
  match prelude w with
  | Some e =>
      fst (script w initial) = Raised e /\
      st_stdout (snd (script w initial)) = [] /\
      st_spawned (snd (script w initial)) = 0%nat
  | None => script w initial = main w (mkState [] 0 1)
  end.
Proof.
  unfold prelude, script, bind, statement, load_dotenv.
  destruct (import_dotenv w) as [e|]; cbn; [repeat split|].
  destruct (load_dotenv_call w 0%nat) as [e|]; cbn; [repeat split|].
  reflexivity.
Qed.


(** X2. A run of the script calls [subprocess.run] once when it reaches
    [main] and an import of boto3 or of botocore.exceptions fails, and
    never otherwise. *)
Theorem script_subprocess_count :
  st_spawned (snd (script w initial)) =
  match prelude w, sdk_attempt w with
  | None, SdkImportFailed _ => 1%nat
  | _, _ => 0%nat
  end.
Proof.
  pose proof script_prelude as P. destruct (prelude w) as [e|].
  - apply P.
  - rewrite P. destruct (main_ends_as (mkState [] 0 1)) as [_ H].
    rewrite H. destruct (sdk_attempt w); reflexivity.
Qed.

(** X3. What the script leaves on standard output: text that begins
    with [AWS reachable via ] when it ends with [sys.exit(0)], with
    [AWS check failed] when it ends with another [sys.exit], in both
    cases closed by a newline; and nothing at all when it ends on an
    uncaught exception. *)
Theorem script_output :
  match fst (script w initial) with
  | Exited code =>
      has_prefix (if (code =? 0)%Z then str "AWS reachable via "
                  else str "AWS check failed")
                 (st_stdout (snd (script w initial))) = true /\
      last (st_stdout (snd (script w initial))) 0 = 10
  | Raised _ => st_stdout (snd (script w initial)) = []
  | Returned _ => False
  end.
Proof.
  pose proof script_prelude as P. destruct (prelude w) as [e|].
  - destruct P as (P1 & P2 & _). rewrite P1. exact P2.
  - rewrite P. destruct (main_output (mkState [] 0 1)) as (out & Ho & Hm).
    cbn [st_stdout app] in Ho. rewrite Ho. exact Hm.
Qed.


End Runs.

Section NonInterference.
Context {RT : PyRuntime}.

Lemma main_same_reports (w1 w2 : World) (st : State) :
  sdk_result w1 = sdk_result w2 ->
  (sdk_result w1 = Failure (str "boto3-not-available") ->
   cli_result w1 = cli_result w2) ->
  main w1 st = main w2 st.
Proof.
  intros Hs Hc. destruct (sdk_result w1) as [v|d] eqn:R1.
  { rewrite (main_primary_success w1 st R1).
    symmetry in Hs. now rewrite (main_primary_success w2 st Hs). }
  symmetry in Hs.
  destruct (pystr_eqb d (str "boto3-not-available")) eqn:E1.
  { apply pystr_eqb_eq in E1. subst d.
    rewrite (main_fallback w1 st R1), (main_fallback w2 st Hs).
    now rewrite (Hc eq_refl). }
  destruct (pystr_eqb d (str "no-credentials")) eqn:E2.
  { apply pystr_eqb_eq in E2. subst d.
    now rewrite (main_no_credentials w1 st R1),
                (main_no_credentials w2 st Hs). }
  assert (N1 : d <> str "boto3-not-available").
  { intros ->. now rewrite pystr_eqb_refl in E1. }
  assert (N2 : d <> str "no-credentials").
  { intros ->. now rewrite pystr_eqb_refl in E2. }
  now rewrite (main_other_failure w1 st R1 N1 N2),
              (main_other_failure w2 st Hs N1 N2).
Qed.


(** X6. Unless an import of the SDK fails, nothing the [aws] tool would
    do changes a run of [main]. *)
Theorem main_ignores_cli (r : Exn + CompletedProcess) (w : World)
  (st : State) :
  (forall e, sdk_attempt w <> SdkImportFailed e) ->
  main (with_subprocess_run r w) st = main w st.
Proof.
  intros H. apply main_same_reports; [reflexivity|].
  intros U.
  change (sdk_result (with_subprocess_run r w)) with (sdk_result w) in U.
  apply sdk_result_unavailable in U as [e U]. now apply H in U.
Qed.

Lemma isinstance_retext (f : Exn -> pystr) (e : Exn) (c : ExcClass) :
  isinstance (retext_exn f e) c = isinstance e c.
Proof. reflexivity. Qed.


End NonInterference.

Section Strip.

Lemma lstrip_split (s : pystr) :
  exists l, s = l ++ lstrip s /\ blank l = true /\
            match lstrip s with
            | c :: _ => py_isspace c = false
            | [] => True
            end.
Proof.
  induction s as [|c s (l & Hs & Hl & Hh)].
  - exists []. repeat split.
  - cbn [lstrip]. destruct (py_isspace c) eqn:E.
    + exists (c :: l). cbn [app blank forallb]. rewrite E.
      repeat split; [now f_equal|exact Hl|exact Hh].
    + exists []. repeat split. exact E.
Qed.

Lemma blank_rev (s : pystr) : blank s = true -> blank (rev s) = true.
Proof.
  unfold blank. rewrite !forallb_forall. intros H x Hx.
  apply H. now apply in_rev.
Qed.

Lemma last_default (x c d : N) (r : pystr) :
  last (x :: r) d = last (x :: r) c.
Proof.
  revert x. induction r as [|y r IH]; intros x; [reflexivity|].
  change (last (y :: r) d = last (y :: r) c). apply IH.
Qed.

Lemma last_cons (c d : N) (r : pystr) : last (c :: r) d = last r c.
Proof.
  destruct r as [|x r]; [reflexivity|].
  change (last (x :: r) d = last (x :: r) c). apply last_default.
Qed.

(** [strip] takes white space off both ends and nothing else. *)
Lemma strip_spec (s : pystr) :
  exists l r, s = l ++ strip s ++ r /\ blank l = true /\ blank r = true /\
              trimmed (strip s) = true.
Proof.
  destruct (lstrip_split s) as (l & Hs & Hl & Hh).
  destruct (lstrip_split (rev (lstrip s))) as (r' & Hr & Hr' & Hu).
  unfold strip. set (t := lstrip s) in *. set (u := lstrip (rev t)) in *.
  assert (Ht : t = rev u ++ rev r').
  { rewrite <- rev_app_distr, <- Hr. symmetry. apply rev_involutive. }
  exists l, (rev r'). repeat split.
  - now rewrite <- Ht.
  - exact Hl.
  - now apply blank_rev.
  - destruct (rev u) as [|c rest] eqn:E; [reflexivity|].
    cbn [trimmed]. rewrite Ht in Hh. cbn [app] in Hh. rewrite Hh.
    cbn [negb andb]. rewrite <- last_cons with (d := c), <- E.
    destruct u as [|x u']; [discriminate E|].
    cbn [rev]. rewrite last_last. now rewrite Hu.
Qed.

Lemma strip_blank (s : pystr) : blank s = true -> strip s = [].
Proof.
  intros H. unfold strip.
  assert (L : lstrip s = []).
  { induction s as [|c s IH]; [reflexivity|]. cbn [blank forallb] in H.
    apply andb_true_iff in H as [Hc Hs]. cbn [lstrip]. rewrite Hc.
    now apply IH. }
  now rewrite L.
Qed.

End Strip.

Section Edges.
Context {RT : PyRuntime}.
Variable w : World.

(** X8. When [aws] exits with a non-zero code, the reason returned is
    [aws-cli-error: ] followed by stderr without the white space at its
    two ends: what is cut off is white space only, what is kept neither
    begins nor ends with white space, and nothing inside is lost. *)
Theorem cli_error_detail (st : State) (proc : CompletedProcess) :
  subprocess_run w = inr proc ->
  returncode proc <> 0%Z ->
  exists l detail r,
    stderr proc = l ++ detail ++ r /\
    blank l = true /\ blank r = true /\ trimmed detail = true /\
    fst (check_with_awscli w st)
    = Returned (Failure (str "aws-cli-error: " ++ detail)).
Proof.
  intros Hp Hc.
  destruct (strip_spec (stderr proc)) as (l & r & H1 & H2 & H3 & H4).
  exists l, (strip (stderr proc)), r. repeat split; try assumption.
  rewrite check_with_awscli_runs. unfold cli_result. rewrite Hp.
  destruct (Z.eqb_spec (returncode proc) 0); [contradiction|reflexivity].
Qed.

(** X9. Fallback with a non-zero exit code and a stderr that is empty or
    white space only: the line printed ends after [aws-cli-error: ], and
    the exit code is 3. *)
Theorem cli_error_blank_stderr (st : State) (proc : CompletedProcess)
  (e : Exn) :
  sdk_attempt w = SdkImportFailed e ->
  subprocess_run w = inr proc ->
  returncode proc <> 0%Z ->
  blank (stderr proc) = true ->
  fst (main w st) = Exited 3 /\
  st_stdout (snd (main w st)) =
  st_stdout st ++ str "AWS check failed (aws-cli): aws-cli-error: " ++ [10].
Proof.
  intros Ha Hp Hc Hb.
  assert (U : sdk_result w = Failure (str "boto3-not-available")).
  { unfold sdk_result. now rewrite Ha. }
  rewrite (main_fallback w st U). unfold cli_result. rewrite Hp.
  destruct (Z.eqb_spec (returncode proc) 0); [contradiction|].
  rewrite (strip_blank _ Hb). split; reflexivity.
Qed.

Lemma json_loads_blank (s : pystr) :
  forallb is_ws s = true ->
  json_loads s
  = inl (mkExn JSONDecodeError (decode_errmsg "Expecting value" s)).
Proof.
  intros H. unfold json_loads.
  assert (K : skip_ws s = []).
  { induction s as [|c s IH]; [reflexivity|]. cbn [forallb] in H.
    apply andb_true_iff in H as [Hc Hs]. cbn [skip_ws]. rewrite Hc.
    now apply IH. }
  rewrite K.
  destruct s as [|c s]; [reflexivity|].
  cbn [forallb] in H. apply andb_true_iff in H as [Hc _].
  destruct (N.eqb_spec c 65279) as [->|_]; [discriminate Hc|reflexivity].
Qed.

(** X10. Fallback with exit code 0 and a stdout that is empty or made of
    spaces, tabs and line ends only: [json.loads] raises [Expecting
    value], the line printed carries [parse-error: ] and that message,
    and the exit code is 3. *)
Theorem cli_empty_stdout (st : State) (proc : CompletedProcess) (e : Exn) :
  sdk_attempt w = SdkImportFailed e ->
  subprocess_run w = inr proc ->
  returncode proc = 0%Z ->
  forallb is_ws (stdout proc) = true ->
  fst (main w st) = Exited 3 /\
  st_stdout (snd (main w st)) =
  st_stdout st ++ str "AWS check failed (aws-cli): parse-error: " ++
  decode_errmsg "Expecting value" (stdout proc) ++ [10].
Proof.
  intros Ha Hp Hc Hb.
  assert (U : sdk_result w = Failure (str "boto3-not-available")).
  { unfold sdk_result. now rewrite Ha. }
  rewrite (main_fallback w st U). unfold cli_result. rewrite Hp, Hc.
  cbn [Z.eqb]. rewrite (json_loads_blank _ Hb). cbn [exc_str fst snd].
  split; [reflexivity|]. unfold emit, spawn, dotenv_called.
  cbn [st_stdout]. now rewrite <- !app_assoc.
Qed.


End Edges.

Section Ascii.
Context {RT : PyRuntime}.

Lemma hexdigit_ascii (n : N) : is_ascii (hexdigit (n mod 16)) = true.
Proof.
  pose proof (N.mod_lt n 16 ltac:(discriminate)) as H.
  unfold hexdigit, is_ascii. destruct (N.ltb_spec (n mod 16) 10);
    apply N.ltb_lt; lia.
Qed.

Lemma u_escape_ascii (n : N) : forallb is_ascii (u_escape n) = true.
Proof.
  unfold u_escape, hex4. cbn [forallb]. now rewrite !hexdigit_ascii.
Qed.

Lemma encode_char_ascii (c : N) : forallb is_ascii (encode_char c) = true.
Proof.
  unfold encode_char.
  repeat match goal with
         | |- context [if ?x =? ?y then _ else _] =>
             destruct (x =? y); [reflexivity|]
         end.
  destruct ((32 <=? c) && (c <=? 126)) eqn:P.
  { apply andb_true_iff in P as [_ P]. apply N.leb_le in P.
    cbn [forallb]. unfold is_ascii. rewrite andb_true_r.
    apply N.ltb_lt. lia. }
  destruct (c <? 65536); [apply u_escape_ascii|].
  cbv zeta. rewrite forallb_app, !u_escape_ascii. reflexivity.
Qed.

Lemma encoded_string_ascii (s : pystr) :
  forallb is_ascii (py_encode_basestring_ascii s) = true.
Proof.
  unfold py_encode_basestring_ascii. cbn [forallb].
  rewrite forallb_app. cbn [forallb andb].
  rewrite andb_true_r. change (is_ascii 34) with true. cbn [andb].
  induction s as [|c s IH]; [reflexivity|].
  cbn [flat_map]. now rewrite forallb_app, encode_char_ascii, IH.
Qed.

Lemma uint_digits_ascii (d : Decimal.uint) :
  forallb is_ascii (uint_digits d) = true.
Proof. induction d; cbn [uint_digits forallb]; rewrite ?IHd; reflexivity. Qed.

Lemma newline_indent_ascii (indent lvl : nat) :
  forallb is_ascii (newline_indent indent lvl) = true.
Proof.
  unfold newline_indent. cbn [forallb].
  induction (indent * lvl)%nat as [|n IH]; [reflexivity|exact IH].
Qed.

Lemma join_ascii (sep : pystr) (ps : list pystr) :
  forallb is_ascii sep = true ->
  Forall (fun p => forallb is_ascii p = true) ps ->
  forallb is_ascii (join sep ps) = true.
Proof.
  intros Hs H. induction H as [|p ps Hp Hps IH]; [reflexivity|].
  destruct ps as [|q ps]; [exact Hp|].
  change (join sep (p :: q :: ps)) with (p ++ sep ++ join sep (q :: ps)).
  now rewrite !forallb_app, Hp, Hs, IH.
Qed.

Lemma iterencode_ascii (v : pyval) :
  no_floats v = true ->
  forall indent lvl, forallb is_ascii (iterencode indent lvl v) = true.
Proof.
  induction v as [|b|z|f|s|l IHl|d IHd] using pyval_induction;
    intros Hv indent lvl.
  - reflexivity.
  - destruct b; reflexivity.
  - destruct z; cbn [iterencode int_repr forallb];
      rewrite ?uint_digits_ascii; reflexivity.
  - discriminate.
  - apply encoded_string_ascii.
  - destruct l as [|e l]; [reflexivity|].
    rewrite iterencode_list. cbn [forallb].
    rewrite !forallb_app, !newline_indent_ascii.
    rewrite join_ascii; [reflexivity|cbn [forallb];
                                      now rewrite newline_indent_ascii|].
    cbn [no_floats] in Hv. rewrite forallb_forall in Hv.
    rewrite Forall_forall in *. intros p Hp.
    apply in_map_iff in Hp as (x & <- & Hx). apply IHl; auto.
  - destruct d as [|kv d]; [reflexivity|].
    rewrite iterencode_dict. cbn [forallb].
    rewrite !forallb_app, !newline_indent_ascii.
    rewrite join_ascii; [reflexivity|cbn [forallb];
                                      now rewrite newline_indent_ascii|].
    cbn [no_floats] in Hv. rewrite forallb_forall in Hv.
    rewrite Forall_forall in *. intros p Hp.
    apply in_map_iff in Hp as (x & <- & Hx). unfold encode_item.
    rewrite !forallb_app, encoded_string_ascii.
    rewrite (IHd x Hx (Hv x Hx)). reflexivity.
Qed.

(** X12. A successful run adds only ASCII characters to standard
    output, whatever code points the strings of the identity hold (floats
    apart, whose text is the runtime's). *)
Theorem success_output_ascii (w : World) (st : State) (header : pystr)
  (data : pyval) :
  succeeds_with w header data ->
  no_floats data = true ->
  forallb is_ascii (st_stdout st) = true ->
  forallb is_ascii (st_stdout (snd (main w st))) = true.
Proof.
  intros Hs Hv Hst. rewrite (success_run st Hs). cbn [snd st_stdout].
  rewrite !forallb_app, Hst. unfold json_dumps.
  rewrite (iterencode_ascii _ Hv). destruct Hs; reflexivity.
Qed.

End Ascii.

(** * Concrete runs *)

(** The identity of the design's example, as [json.dumps(.., indent=2)]
    prints it: one pair per line, two spaces in. *)
Example dumps_test_identity :
  json_dumps 2 test_identity =
  str "{" ++ [10] ++
  str "  " ++ quoted "Account" ++ str ": " ++ quoted "123456789012" ++
  str "," ++ [10] ++
  str "  " ++ quoted "Arn" ++ str ": " ++
  quoted "arn:aws:iam::123456789012:user/test" ++ str "," ++ [10] ++
  str "  " ++ quoted "UserId" ++ str ": " ++ quoted "AID..." ++ [10] ++
  str "}".
Proof. reflexivity. Qed.

(** Nested containers go two more spaces in at each level. *)
Example dumps_nested :
  json_dumps 2 (PDict [(str "a", PList [PInt 1; PList [PNone]])]) =
  str "{" ++ [10] ++
  str "  " ++ quoted "a" ++ str ": [" ++ [10] ++
  str "    1," ++ [10] ++
  str "    [" ++ [10] ++
  str "      null" ++ [10] ++
  str "    ]" ++ [10] ++
  str "  ]" ++ [10] ++
  str "}".
Proof. reflexivity. Qed.

(** The whole script when boto3 is missing and [aws] prints an empty
    object: one subprocess, the fallback header and the payload, status 0. *)
Example fallback_success_run :
  script world_cli_ok initial =
  (Exited 0,
   mkState (str "AWS reachable via aws-cli:" ++ [10] ++ str "{}" ++ [10]) 1 2).
Proof. reflexivity. Qed.

(** The whole script on the design's first scenario: no subprocess, the
    primary header and the identity, status 0. *)
Example primary_success_run :
  script world_sdk_ok initial =
  (Exited 0,
   mkState (str "AWS reachable via boto3:" ++ [10] ++
            json_dumps 2 test_identity ++ [10]) 0 2).
Proof. reflexivity. Qed.

(** In the runtime that keeps a float as its literal, [1.5] reads back,
    so the law asked of the runtime can be met. *)
Example literal_float_reads_back : float_reads_back (str "1.5").
Proof.
  split; [reflexivity|]. intros fuel rest H.
  change (scan_once (S fuel) (49 :: 46 :: 53 :: rest)
          = Scanned (PFloat (str "1.5")) rest).
  cbn [scan_once N.eqb Pos.eqb]. unfold scan_rest, scan_number.
  unfold match_integer. cbn [N.eqb Pos.eqb is_digit N.leb N.compare
    Pos.compare Pos.compare_cont andb span_digits app].
  unfold match_frac. cbn [N.eqb Pos.eqb span_digits is_digit N.leb N.compare
    Pos.compare Pos.compare_cont andb].
  rewrite (span_digits_stop _ H), (match_exp_stop _ H). reflexivity.
Qed.

Example loads_dumps_with_float :
  json_loads (json_dumps 2 (PList [PFloat (str "1.5"); PInt 2]))
  = inr (PList [PFloat (str "1.5"); PInt 2]).
Proof. reflexivity. Qed.


Lemma no_subprocess_unless_unavailable_witness :
  reports (check_with_boto3 world_endpoint_down)
    (Failure (str "endpoint-error: could not connect")) /\
  Failure (str "endpoint-error: could not connect")
    <> Failure (str "boto3-not-available") /\
  st_spawned (snd (main world_endpoint_down initial)) = 0%nat.
Proof.
  assert (R : reports (check_with_boto3 world_endpoint_down)
                (Failure (str "endpoint-error: could not connect"))).
  { intros st. reflexivity. }
  assert (D : Failure
                (str "endpoint-error: could not connect")
              <> Failure (str "boto3-not-available")).
  { discriminate. }
  split; [exact R|]. split; [exact D|].
  exact (no_subprocess_unless_unavailable initial R D).
Defined.

Lemma fallback_cli_error_line_witness :
  fst (main world_cli_no_credentials initial) = Exited 3 /\
  st_stdout (snd (main world_cli_no_credentials initial)) =
  st_stdout initial ++
  str "AWS check failed (aws-cli): aws-cli-error: Unable to locate credentials"
  ++ [10].
Proof.
  apply (fallback_cli_error_line (w := world_cli_no_credentials) initial
           (proc := mkProc 1 [] (str "Unable to locate credentials"))).
  - intros st. reflexivity.
  - reflexivity.
  - reflexivity.
  - reflexivity.
Defined.

(** C3 as it is written, at the scenario of the design: boto3 missing,
    [aws] exits 1 with stderr [Unable to locate credentials].  The line
    printed is not [AWS check failed (aws-cli): Unable to locate
    credentials]. *)
Lemma fallback_line_without_category_refuted :
  reports (check_with_boto3 world_cli_no_credentials)
    (Failure (str "boto3-not-available")) /\
  subprocess_run world_cli_no_credentials =
    inr (mkProc 1 [] (str "Unable to locate credentials")) /\
  st_stdout (snd (main world_cli_no_credentials initial)) <>
    str "AWS check failed (aws-cli): Unable to locate credentials" ++ [10].
Proof.
  split; [intros st; reflexivity|]. split; [reflexivity|].
  intros H. vm_compute in H. discriminate H.
Qed.

Lemma no_credentials_run_witness :
  reports (check_with_boto3 world_no_credentials)
    (Failure (str "no-credentials")) /\
  fst (main world_no_credentials initial) = Exited 2 /\
  st_stdout (snd (main world_no_credentials initial)) =
  st_stdout initial ++
  str "AWS check failed: no credentials available for boto3" ++ [10] /\
  st_spawned (snd (main world_no_credentials initial)) = st_spawned initial.
Proof.
  assert (R : reports (check_with_boto3 world_no_credentials)
                (Failure (str "no-credentials"))).
  { intros st. reflexivity. }
  split; [exact R|exact (no_credentials_run initial R)].
Defined.



(** * Concrete runs, continued *)

Lemma main_ignores_cli_witness :
  (forall e, sdk_attempt world_sdk_ok <> SdkImportFailed e) /\
  main (with_subprocess_run (inl permission_denied) world_sdk_ok) initial
  = main world_sdk_ok initial.
Proof.
  assert (H : forall e, sdk_attempt world_sdk_ok <> SdkImportFailed e).
  { intros e. discriminate. }
  split; [exact H|].
  exact (main_ignores_cli (inl permission_denied) world_sdk_ok initial H).
Defined.


Lemma cli_error_detail_witness :
  subprocess_run world_cli_padded_stderr
  = inr (mkProc 255 []
           ([10; 32] ++ str "Unable to locate credentials" ++ [10])) /\
  exists l detail r,
    [10; 32] ++ str "Unable to locate credentials" ++ [10]
    = l ++ detail ++ r /\
    blank l = true /\ blank r = true /\ trimmed detail = true /\
    fst (check_with_awscli world_cli_padded_stderr initial)
    = Returned (Failure (str "aws-cli-error: " ++ detail)).
Proof.
  split; [reflexivity|].
  apply (cli_error_detail world_cli_padded_stderr initial
           (proc := mkProc 255 []
              ([10; 32] ++ str "Unable to locate credentials" ++ [10]))).
  - reflexivity.
  - discriminate.
Defined.

Lemma cli_error_blank_stderr_witness :
  blank [10] = true /\
  fst (main world_cli_blank_stderr initial) = Exited 3 /\
  st_stdout (snd (main world_cli_blank_stderr initial)) =
  st_stdout initial ++
  str "AWS check failed (aws-cli): aws-cli-error: " ++ [10].
Proof.
  split; [reflexivity|].
  apply (cli_error_blank_stderr world_cli_blank_stderr initial
           (proc := mkProc 1 [] [10]) (e := no_boto3)).
  - reflexivity.
  - reflexivity.
  - discriminate.
  - reflexivity.
Defined.

Lemma cli_empty_stdout_witness :
  forallb is_ws [10] = true /\
  fst (main world_cli_silent initial) = Exited 3 /\
  st_stdout (snd (main world_cli_silent initial)) =
  st_stdout initial ++ str "AWS check failed (aws-cli): parse-error: " ++
  decode_errmsg "Expecting value" [10] ++ [10].
Proof.
  split; [reflexivity|].
  apply (cli_empty_stdout world_cli_silent initial
           (proc := mkProc 0 [10] []) (e := no_boto3));
    reflexivity.
Defined.


Lemma success_output_ascii_witness :
  succeeds_with world_sdk_ok (str "AWS reachable via boto3:") test_identity /\
  no_floats test_identity = true /\
  forallb is_ascii (st_stdout (snd (main world_sdk_ok initial))) = true.
Proof.
  assert (S0 : succeeds_with world_sdk_ok (str "AWS reachable via boto3:")
                 test_identity).
  { apply succeeds_primary. intros st. reflexivity. }
  assert (V : no_floats test_identity = true) by reflexivity.
  split; [exact S0|]. split; [exact V|].
  exact (success_output_ascii initial S0 V eq_refl).
Defined.
